(** * Shallow embedding of confluence_summarizer's comparison engine and
    summary workflow.

    Sources:
    - agent/base.py       : [_analyze_section_changes], [_calculate_comparison_stats]
    - agent/summarizer.py : the five workflow stages, the graph wiring and
                            [summarize]; agent/base.py: the agent constructor
    - Python's difflib     : [SequenceMatcher] and [unified_diff], which the
                            comparison engine calls (no junk function; the
                            autojunk heuristic is modelled). *)

From stdpp Require Import base gmap sets list strings.
From Stdlib Require Import Ascii String.

Open Scope string_scope.

(* ------------------------------------------------------------------ *)
(** ** Python string primitives *)
(* ------------------------------------------------------------------ *)

Module Py.

Definition chr_nl : ascii := Ascii.ascii_of_nat 10.
Definition str_nl : string := String chr_nl EmptyString.

Infix "+s+" := String.append (at level 60, right associativity).

(** [str.isspace] on one ASCII character (space, \t \n \v \f \r and the
    separators \x1c..\x1f). *)
Definition isspace (c : ascii) : bool :=
  let n := nat_of_ascii c in
  ((n =? 32) || ((9 <=? n) && (n <=? 13)) || ((28 <=? n) && (n <=? 31)))%nat.

(** [bool(s.strip())]: the string has a non-whitespace character. *)
Fixpoint strip_truthy (s : string) : bool :=
  match s with
  | EmptyString => false
  | String c r => negb (isspace c) || strip_truthy r
  end.

(** Remove leading characters satisfying [p]. *)
Fixpoint lstrip_by (p : ascii -> bool) (s : string) : string :=
  match s with
  | EmptyString => EmptyString
  | String c r => if p c then lstrip_by p r else s
  end.

Fixpoint rev_str (s : string) (acc : string) : string :=
  match s with
  | EmptyString => acc
  | String c r => rev_str r (String c acc)
  end.

Definition rstrip_by (p : ascii -> bool) (s : string) : string :=
  rev_str (lstrip_by p (rev_str s EmptyString)) EmptyString.

(** [s.strip(chars)] and [s.strip()] *)
Definition strip_by (p : ascii -> bool) (s : string) : string :=
  rstrip_by p (lstrip_by p s).

Definition strip (s : string) : string := strip_by isspace s.

Definition is_hash_or_space (c : ascii) : bool :=
  Ascii.eqb c "#"%char || Ascii.eqb c " "%char.

(** [s.strip("# ")] *)
Definition strip_hash_space (s : string) : string := strip_by is_hash_or_space s.

(** [s.split("\n")]: always at least one piece. *)
Fixpoint split_nl (s : string) : list string :=
  match s with
  | EmptyString => [EmptyString]
  | String c r =>
      let ps := split_nl r in
      if Ascii.eqb c chr_nl then EmptyString :: ps
      else match ps with
           | p :: t => String c p :: t
           | [] => [String c EmptyString]
           end
  end.

(** [sep.join(xs)] *)
Fixpoint join (sep : string) (xs : list string) : string :=
  match xs with
  | [] => EmptyString
  | [x] => x
  | x :: t => x +s+ sep +s+ join sep t
  end.

(** [str.splitlines()] on ASCII text: line boundaries are \n, \r, \r\n,
    \v, \f, \x1c, \x1d, \x1e; a final boundary opens no further line. *)
Definition is_line_break (c : ascii) : bool :=
  let n := nat_of_ascii c in
  ((n =? 10) || (n =? 13) || (n =? 11) || (n =? 12) || ((28 <=? n) && (n <=? 30)))%nat.

Fixpoint splitlines_aux (s : string) (cur : string) : list string :=
  match s with
  | EmptyString => if String.eqb cur EmptyString then [] else [rev_str cur EmptyString]
  | String c r =>
      if is_line_break c then
        let r' := if (nat_of_ascii c =? 13)%nat then
                    match r with
                    | String d r2 => if (nat_of_ascii d =? 10)%nat then r2 else r
                    | EmptyString => r
                    end
                  else r in
        rev_str cur EmptyString :: splitlines_aux r' EmptyString
      else splitlines_aux r (String c cur)
  end.

Definition splitlines (s : string) : list string := splitlines_aux s EmptyString.

(** [sep in s] and [s.split(sep)] for a non-empty separator. *)
Fixpoint starts_with (p s : string) : bool :=
  match p, s with
  | EmptyString, _ => true
  | String c p', String d s' => Ascii.eqb c d && starts_with p' s'
  | String _ _, EmptyString => false
  end.

Fixpoint contains (p s : string) : bool :=
  match s with
  | EmptyString => starts_with p s
  | String _ r => starts_with p s || contains p r
  end.

Fixpoint drop_n (n : nat) (s : string) : string :=
  match n, s with
  | 0, _ => s
  | S n', String _ r => drop_n n' r
  | S _, EmptyString => EmptyString
  end.

(** Leftmost non-overlapping split; [fuel] bounds the scan by the length. *)
Fixpoint split_sep_aux (fuel : nat) (sep s : string) (cur : string) : list string :=
  match fuel with
  | 0 => [rev_str cur EmptyString]
  | S f =>
      match s with
      | EmptyString => [rev_str cur EmptyString]
      | String c r =>
          if starts_with sep s then
            rev_str cur EmptyString
              :: split_sep_aux f sep (drop_n (String.length sep) s) EmptyString
          else split_sep_aux f sep r (String c cur)
      end
  end.

Definition split_sep (sep s : string) : list string :=
  split_sep_aux (S (String.length s)) sep s EmptyString.

(** [re.split(r"(?=## )", s)] (Python >= 3.7 splits on empty matches):
    the string is cut before every position where "## " begins; a match
    at position 0 yields a leading empty piece. *)
Fixpoint re_split_heading (s : string) : list string :=
  match s with
  | EmptyString => [EmptyString]
  | String c r =>
      let ps := match re_split_heading r with
                | p :: t => String c p :: t
                | [] => [String c EmptyString]
                end in
      if starts_with "## " s then EmptyString :: ps else ps
  end.

End Py.

Import Py.

(** Decimal rendering of a natural number, as [str(n)]. *)
Fixpoint digits_aux (fuel n : nat) (acc : string) : string :=
  match fuel with
  | 0 => acc
  | S f =>
      let d := Ascii.ascii_of_nat (48 + n mod 10) in
      if (n <? 10)%nat then String d acc else digits_aux f (n / 10) (String d acc)
  end.

Definition str_of_nat (n : nat) : string := digits_aux (S n) n EmptyString.

(* ------------------------------------------------------------------ *)
(** ** difflib.SequenceMatcher (isjunk=None, autojunk=True) and
       difflib.unified_diff (n=3), after CPython's Lib/difflib.py *)
(* ------------------------------------------------------------------ *)

Module Difflib.

Local Open Scope nat_scope.

(** [seq[i]] at an index the code only uses in range. *)
Definition elt (xs : list string) (i : nat) : string := nth i xs "".

(** [seq[lo:hi]] *)
Definition slice (xs : list string) (lo hi : nat) : list string :=
  firstn (hi - lo) (skipn lo xs).

(** [__chain_b]: [b2j[x]] lists the indices of [x] in [b] in increasing
    order; with autojunk and [len(b) >= 200], elements occurring more
    than [len(b) // 100 + 1] times are "popular" and their entries are
    deleted.  There is no junk function, so [bjunk] is empty. *)
Definition count_in (x : string) (b : list string) : nat :=
  List.length (List.filter (fun y => String.eqb x y) b).

Definition popular (b : list string) (x : string) : bool :=
  (200 <=? List.length b) && (List.length b / 100 + 1 <? count_in x b).

(** [b2j.get(x, nothing)] *)
Definition b2j_get (b : list string) (x : string) : list nat :=
  if popular b x then []
  else List.filter (fun j => String.eqb (elt b j) x) (seq 0 (List.length b)).

(** [j2len.get(j, 0)] on the dictionary of the previous row. *)
Fixpoint j2len_get (d : list (nat * nat)) (j : nat) : nat :=
  match d with
  | [] => 0
  | (j', k) :: d' => if j' =? j then k else j2len_get d' j
  end.

Definition match_t : Type := (nat * nat * nat)%type.

(** The inner loop of [find_longest_match] over [b2j.get(a[i])]:
    [continue] below [blo], [break] at [bhi]; [j2lenget(j-1, 0)] is 0 for
    [j = 0] (the key [-1] is never present). *)
Fixpoint flm_cols (i blo bhi : nat) (js : list nat) (j2len newj2len : list (nat * nat))
    (best : match_t) : list (nat * nat) * match_t :=
  match js with
  | [] => (newj2len, best)
  | j :: js' =>
      if j <? blo then flm_cols i blo bhi js' j2len newj2len best
      else if bhi <=? j then (newj2len, best)
      else
        let k := match j with 0 => 0 | S j' => j2len_get j2len j' end + 1 in
        let best' := let '(_, _, bestsize) := best in
                     if bestsize <? k then (S i - k, S j - k, k) else best in
        flm_cols i blo bhi js' j2len ((j, k) :: newj2len) best'
  end.

(** The outer loop [for i in range(alo, ahi)]. *)
Fixpoint flm_rows (a b : list string) (blo bhi : nat) (is : list nat)
    (j2len : list (nat * nat)) (best : match_t) : match_t :=
  match is with
  | [] => best
  | i :: is' =>
      let '(newj2len, best') := flm_cols i blo bhi (b2j_get b (elt a i)) j2len [] best in
      flm_rows a b blo bhi is' newj2len best'
  end.

(** [while besti > alo and bestj > blo and not isbjunk(b[bestj-1]) and
    a[besti-1] == b[bestj-1]]; the loop runs at most [besti - alo] times,
    which is the fuel it is given. *)
Fixpoint extend_left (a b : list string) (alo blo fuel : nat) (m : match_t) : match_t :=
  match fuel with
  | 0 => m
  | S f =>
      let '(i, j, k) := m in
      if (alo <? i) && (blo <? j) && String.eqb (elt a (i - 1)) (elt b (j - 1))
      then extend_left a b alo blo f (i - 1, j - 1, k + 1)
      else m
  end.

(** [while besti+bestsize < ahi and bestj+bestsize < bhi and ...
    a[besti+bestsize] == b[bestj+bestsize]]: at most [ahi - (besti+bestsize)]
    rounds. *)
Fixpoint extend_right (a b : list string) (ahi bhi fuel : nat) (m : match_t) : match_t :=
  match fuel with
  | 0 => m
  | S f =>
      let '(i, j, k) := m in
      if (i + k <? ahi) && (j + k <? bhi) && String.eqb (elt a (i + k)) (elt b (j + k))
      then extend_right a b ahi bhi f (i, j, k + 1)
      else m
  end.

(** [find_longest_match(alo, ahi, blo, bhi)].  The two trailing loops that
    extend over junk elements never run: [bjunk] is empty. *)
Definition find_longest_match (a b : list string) (alo ahi blo bhi : nat) : match_t :=
  let m0 := flm_rows a b blo bhi (seq alo (ahi - alo)) [] (alo, blo, 0) in
  let '(i0, _, _) := m0 in
  let m1 := extend_left a b alo blo (i0 - alo) m0 in
  let '(i1, _, k1) := m1 in
  extend_right a b ahi bhi (ahi - (i1 + k1)) m1.

(** The queue loop of [get_matching_blocks] followed by [sort()]: every
    block found inside [a[alo:i]] lies before [(i, j, k)] and every block
    inside [a[i+k:ahi]] after it, so an in-order recursion yields the
    sorted list.  Each recursive window is strictly shorter in [a], so
    fuel [ahi - alo] suffices. *)
Fixpoint blocks_rec (a b : list string) (fuel alo ahi blo bhi : nat) : list match_t :=
  match fuel with
  | 0 => []
  | S f =>
      let '(i, j, k) := find_longest_match a b alo ahi blo bhi in
      if k =? 0 then []
      else (if (alo <? i) && (blo <? j) then blocks_rec a b f alo i blo j else [])
           ++ [(i, j, k)]
           ++ (if (i + k <? ahi) && (j + k <? bhi)
               then blocks_rec a b f (i + k) ahi (j + k) bhi else [])
  end.

(** Collapse adjacent blocks. *)
Fixpoint collapse (bs : list match_t) (i1 j1 k1 : nat) : list match_t :=
  match bs with
  | [] => if k1 =? 0 then [] else [(i1, j1, k1)]
  | (i2, j2, k2) :: bs' =>
      if (i1 + k1 =? i2) && (j1 + k1 =? j2) then collapse bs' i1 j1 (k1 + k2)
      else (if k1 =? 0 then [] else [(i1, j1, k1)]) ++ collapse bs' i2 j2 k2
  end.

Definition get_matching_blocks (a b : list string) : list match_t :=
  let la := List.length a in
  let lb := List.length b in
  collapse (blocks_rec a b la 0 la 0 lb) 0 0 0 ++ [(la, lb, 0)].

Inductive tag := Replace | Delete | Insert | Equal.

Definition tag_eqb (t u : tag) : bool :=
  match t, u with
  | Replace, Replace | Delete, Delete | Insert, Insert | Equal, Equal => true
  | _, _ => false
  end.

Definition opcode : Type := (tag * nat * nat * nat * nat)%type.

Fixpoint opcodes_aux (bs : list match_t) (i j : nat) : list opcode :=
  match bs with
  | [] => []
  | (ai, bj, size) :: bs' =>
      let pre := if (i <? ai) && (j <? bj) then [(Replace, i, ai, j, bj)]
                 else if i <? ai then [(Delete, i, ai, j, bj)]
                 else if j <? bj then [(Insert, i, ai, j, bj)]
                 else [] in
      pre ++ (if size =? 0 then [] else [(Equal, ai, ai + size, bj, bj + size)])
          ++ opcodes_aux bs' (ai + size) (bj + size)
  end.

Definition get_opcodes (a b : list string) : list opcode :=
  opcodes_aux (get_matching_blocks a b) 0 0.

(** Fix-up of the leading and trailing [equal] opcodes. *)
Definition fix_first (n : nat) (codes : list opcode) : list opcode :=
  match codes with
  | (Equal, i1, i2, j1, j2) :: t => (Equal, max i1 (i2 - n), i2, max j1 (j2 - n), j2) :: t
  | _ => codes
  end.

Definition fix_last (n : nat) (codes : list opcode) : list opcode :=
  match rev codes with
  | (Equal, i1, i2, j1, j2) :: t => rev ((Equal, i1, min i2 (i1 + n), j1, min j2 (j1 + n)) :: t)
  | _ => codes
  end.

(** [if group and not (len(group) == 1 and group[0][0] == 'equal')] *)
Definition keep_group (g : list opcode) : bool :=
  match g with
  | [] => false
  | [(Equal, _, _, _, _)] => false
  | _ => true
  end.

(** The grouping loop; [group] is kept in reverse. *)
Fixpoint group_aux (n : nat) (codes : list opcode) (group : list opcode) : list (list opcode) :=
  match codes with
  | [] => if keep_group (rev group) then [rev group] else []
  | (tg, i1, i2, j1, j2) :: codes' =>
      if tag_eqb tg Equal && (n + n <? i2 - i1) then
        rev ((tg, i1, min i2 (i1 + n), j1, min j2 (j1 + n)) :: group)
          :: group_aux n codes' [(tg, max i1 (i2 - n), i2, max j1 (j2 - n), j2)]
      else group_aux n codes' ((tg, i1, i2, j1, j2) :: group)
  end.

Definition get_grouped_opcodes (n : nat) (a b : list string) : list (list opcode) :=
  let codes := match get_opcodes a b with [] => [(Equal, 0, 1, 0, 1)] | cs => cs end in
  group_aux n (fix_last n (fix_first n codes)) [].

(** [_format_range_unified] *)
Definition format_range_unified (start stop : nat) : string :=
  let beginning := start + 1 in
  let len := stop - start in
  if len =? 1 then str_of_nat beginning
  else if len =? 0 then str_of_nat (beginning - 1) +s+ "," +s+ str_of_nat len
  else str_of_nat beginning +s+ "," +s+ str_of_nat len.

Definition op_lines (a b : list string) (op : opcode) : list string :=
  let '(tg, i1, i2, j1, j2) := op in
  match tg with
  | Equal => map (fun l => " " +s+ l) (slice a i1 i2)
  | Replace => map (fun l => "-" +s+ l) (slice a i1 i2) ++ map (fun l => "+" +s+ l) (slice b j1 j2)
  | Delete => map (fun l => "-" +s+ l) (slice a i1 i2)
  | Insert => map (fun l => "+" +s+ l) (slice b j1 j2)
  end.

Definition op_i1 (op : opcode) : nat := let '(_, i1, _, _, _) := op in i1.
Definition op_i2 (op : opcode) : nat := let '(_, _, i2, _, _) := op in i2.
Definition op_j1 (op : opcode) : nat := let '(_, _, _, j1, _) := op in j1.
Definition op_j2 (op : opcode) : nat := let '(_, _, _, _, j2) := op in j2.

Definition dummy_op : opcode := (Equal, 0, 0, 0, 0).

Definition hunk (a b : list string) (group : list opcode) : list string :=
  let first := List.hd dummy_op group in
  let last := List.last group dummy_op in
  ("@@ -" +s+ format_range_unified (op_i1 first) (op_i2 last) +s+ " +"
     +s+ format_range_unified (op_j1 first) (op_j2 last) +s+ " @@")
  :: flat_map (op_lines a b) group.

(** [list(unified_diff(a, b, lineterm=''))] with empty file names and
    dates and [n = 3]. *)
Definition unified_diff (a b : list string) : list string :=
  match get_grouped_opcodes 3 a b with
  | [] => []
  | groups => "--- " :: "+++ " :: flat_map (hunk a b) groups
  end.

End Difflib.

(* ------------------------------------------------------------------ *)
(** ** Exceptions and the error monad of a Python call *)
(* ------------------------------------------------------------------ *)

Inductive py_exn :=
| StopIteration
| NameError (name : string)
| JSONDecodeError
| IndexError
| AttributeError (msg : string)
| ServiceError (msg : string).

(** [str(e)] *)
Definition exn_str (e : py_exn) : string :=
  match e with
  | StopIteration => ""
  | NameError n => "name '" +s+ n +s+ "' is not defined"
  | JSONDecodeError => "Expecting value: line 1 column 1 (char 0)"
  | IndexError => "list index out of range"
  | AttributeError m => m
  | ServiceError m => m
  end.

(** A call either returns or raises. *)
Inductive outcome (A : Type) := Ok (x : A) | Raise (e : py_exn).
Arguments Ok {A} x.
Arguments Raise {A} e.

Global Instance outcome_ret : MRet outcome := fun _ x => Ok x.
Global Instance outcome_bind : MBind outcome := fun _ _ f m =>
  match m with Ok x => f x | Raise e => Raise e end.

(* ------------------------------------------------------------------ *)
(** ** agent/base.py: the comparison engine *)
(* ------------------------------------------------------------------ *)

Module Base.

Record section_change := {
  ch_section : string;
  ch_old_line_count : Z;
  ch_new_line_count : Z;
  ch_diff_line_count : Z;
  ch_change_summary : string
}.

(** The dictionary returned by [_calculate_comparison_stats]. *)
Record comparison_stats := {
  old_line_count : Z;
  new_line_count : Z;
  line_difference : Z;
  changed_sections : Z;
  added_sections : Z;
  removed_sections : Z;
  section_changes : list section_change
}.

(** [s.split("\n")[0].strip("# ")] *)
Definition section_title (s : string) : string :=
  strip_hash_space (List.hd "" (split_nl s)).

(** [{s.split("\n")[0].strip("# ") for s in sections if s.strip()}] *)
Definition section_titles (sections : list string) : gset string :=
  list_to_set (map section_title (List.filter strip_truthy sections)).

(** [re.split(r"(?=## )", content)] *)
Definition split_sections (content : string) : list string := re_split_heading content.

(** [next(s for s in sections if s.split("\n")[0].strip("# ") == t)] *)
Fixpoint next_with_title (t : string) (sections : list string) : outcome string :=
  match sections with
  | [] => Raise StopIteration
  | s :: r => if String.eqb (section_title s) t then Ok s else next_with_title t r
  end.

(** [section.split("\n")[1:]] *)
Definition body_lines (s : string) : list string := List.tl (split_nl s).

Section Engine.

(** [chain.invoke({"old": .., "new": ..})] for the change-analysis prompt:
    the language model behind [self.llm], which may raise. *)
Variable chain_invoke : string -> string -> outcome string.

(** [_analyze_section_changes]: the whole body is inside [try]. *)
Definition _analyze_section_changes (old_section new_section : string) : string :=
  match chain_invoke old_section new_section with
  | Ok analysis => strip analysis
  | Raise e => "Error analyzing changes: " +s+ exn_str e
  end.

(** One iteration of [for section in old_section_titles & new_section_titles]. *)
Definition section_step (old_sections new_sections : list string) (section : string)
    : outcome (list section_change) :=
  old_section ← next_with_title section old_sections;
  new_section ← next_with_title section new_sections;
  let old_lines := body_lines old_section in
  let new_lines := body_lines new_section in
  let diff := Difflib.unified_diff old_lines new_lines in
  match diff with
  | [] => Ok []
  | _ :: _ =>
      let change_summary :=
        _analyze_section_changes (join str_nl old_lines) (join str_nl new_lines) in
      Ok [{| ch_section := section;
             ch_old_line_count := Z.of_nat (List.length old_lines);
             ch_new_line_count := Z.of_nat (List.length new_lines);
             ch_diff_line_count := Z.of_nat (List.length diff);
             ch_change_summary := change_summary |}]
  end.

Fixpoint section_loop (old_sections new_sections : list string) (titles : list string)
    : outcome (list section_change) :=
  match titles with
  | [] => Ok []
  | section :: rest =>
      here ← section_step old_sections new_sections section;
      later ← section_loop old_sections new_sections rest;
      Ok (here ++ later)%list
  end.

(** [_calculate_comparison_stats].  A Python set is iterated in hash order;
    the model iterates [elements] of the intersection, one fixed order. *)
Definition _calculate_comparison_stats (old_content new_content : string)
    : outcome comparison_stats :=
  let old_lines := splitlines old_content in
  let new_lines := splitlines new_content in
  let old_sections := split_sections old_content in
  let new_sections := split_sections new_content in
  let old_section_titles := section_titles old_sections in
  let new_section_titles := section_titles new_sections in
  changes ← section_loop old_sections new_sections
              (elements (old_section_titles ∩ new_section_titles));
  Ok {| old_line_count := Z.of_nat (List.length old_lines);
        new_line_count := Z.of_nat (List.length new_lines);
        line_difference := (Z.of_nat (List.length new_lines) - Z.of_nat (List.length old_lines))%Z;
        changed_sections := Z.of_nat (size (old_section_titles ∩ new_section_titles));
        added_sections := Z.of_nat (size (new_section_titles ∖ old_section_titles));
        removed_sections := Z.of_nat (size (old_section_titles ∖ new_section_titles));
        section_changes := changes |}.

End Engine.

End Base.

Import Base.

(* ------------------------------------------------------------------ *)
(** ** agent/summarizer.py: the summary workflow *)
(* ------------------------------------------------------------------ *)

Module Summarizer.

(** The request that [summarize] serialises with [json.dumps] into the
    first message; [json.loads] of that message gives it back. *)
Record params := {
  p_space_key : string;
  p_page_id : option string;
  p_include_children : bool;
  p_persona : string;
  p_context : option string;
  p_export : bool;
  p_export_dir : string
}.

(** [HumanMessage(content=json.dumps(params))] or [AIMessage(content=...)]. *)
Inductive message :=
| HumanMessage (p : params)
| AIMessage (content : string).

Record document := {
  page_content : string;
  doc_metadata : gmap string string
}.

(** [AgentState] *)
Record agent_state := {
  messages : list message;
  documents : list document;
  summary : option string;
  metadata : gmap string string;
  export_path : option string;
  previous_summary : option string;
  diff_result : option string;
  comparison_stats : option comparison_stats
}.

(** The process-visible world: the run state and the files on disk,
    keyed by path. *)
Record world := {
  st : agent_state;
  files : gmap string string
}.

(** The external collaborators a run talks to. *)
Record env := {
  (** [self.document_loader.load_content(...)] *)
  load_documents : params -> outcome (list document);
  (** [self.persona_manager.get_persona_prompt(persona)] *)
  persona_prompt : string -> outcome string;
  (** the summary chain: messages so far and the joined page contents *)
  summary_chain : list message -> string -> outcome string;
  (** the change-analysis chain of [_analyze_section_changes] *)
  analysis_chain : string -> string -> outcome string;
  (** [datetime.now().strftime("%Y%m%d_%H%M%S")] and ["%Y-%m-%d %H:%M:%S"] *)
  now_stamp : string;
  now_date : string;
  (** [os.getlogin()] *)
  login : string
}.

(** Module-level names bound in summarizer.py (its imports and its class);
    [os] and [unified_diff] are not among them. *)
Definition summarizer_globals : list string :=
  ["Dict"; "Optional"; "Path"; "datetime"; "json"; "HumanMessage"; "AIMessage";
   "ChatPromptTemplate"; "MessagesPlaceholder"; "StrOutputParser"; "StateGraph";
   "END"; "Config"; "BaseConfluenceAgent"; "AgentState"; "ConfluenceSummarizerAgent"].

(** The state-and-exception monad of a stage body: an exception keeps the
    mutations made before it, as with the shared [state] dictionary. *)
Definition M (A : Type) : Type := world -> outcome A * world.

Definition ret {A} (x : A) : M A := fun w => (Ok x, w).
Definition bind {A B} (m : M A) (f : A -> M B) : M B := fun w =>
  match m w with
  | (Ok x, w') => f x w'
  | (Raise e, w') => (Raise e, w')
  end.
Definition raise {A} (e : py_exn) : M A := fun w => (Raise e, w).
Definition lift {A} (o : outcome A) : M A := fun w => (o, w).
Definition get_state : M agent_state := fun w => (Ok (st w), w).
Definition modify_state (f : agent_state -> agent_state) : M unit := fun w =>
  (Ok tt, {| st := f (st w); files := files w |}).
Definition get_files : M (gmap string string) := fun w => (Ok (files w), w).
Definition write_file (path content : string) : M unit := fun w =>
  (Ok tt, {| st := st w; files := <[path := content]> (files w) |}).

Global Instance M_ret : MRet M := @ret.
Global Instance M_bind : MBind M := fun _ _ f m => bind m f.

(** Looking up a module-level name. *)
Definition global (name : string) : M unit :=
  if existsb (String.eqb name) summarizer_globals then ret tt else raise (NameError name).

Definition set_messages (ms : list message) (s : agent_state) : agent_state :=
  {| messages := ms; documents := documents s; summary := summary s; metadata := metadata s;
     export_path := export_path s; previous_summary := previous_summary s;
     diff_result := diff_result s; comparison_stats := comparison_stats s |}.
Definition set_documents (ds : list document) (s : agent_state) : agent_state :=
  {| messages := messages s; documents := ds; summary := summary s; metadata := metadata s;
     export_path := export_path s; previous_summary := previous_summary s;
     diff_result := diff_result s; comparison_stats := comparison_stats s |}.
Definition set_summary (x : string) (s : agent_state) : agent_state :=
  {| messages := messages s; documents := documents s; summary := Some x; metadata := metadata s;
     export_path := export_path s; previous_summary := previous_summary s;
     diff_result := diff_result s; comparison_stats := comparison_stats s |}.
Definition set_metadata (m : gmap string string) (s : agent_state) : agent_state :=
  {| messages := messages s; documents := documents s; summary := summary s; metadata := m;
     export_path := export_path s; previous_summary := previous_summary s;
     diff_result := diff_result s; comparison_stats := comparison_stats s |}.
Definition set_export_path (x : string) (s : agent_state) : agent_state :=
  {| messages := messages s; documents := documents s; summary := summary s; metadata := metadata s;
     export_path := Some x; previous_summary := previous_summary s;
     diff_result := diff_result s; comparison_stats := comparison_stats s |}.
Definition set_diff_result (x : string) (s : agent_state) : agent_state :=
  {| messages := messages s; documents := documents s; summary := summary s; metadata := metadata s;
     export_path := export_path s; previous_summary := previous_summary s;
     diff_result := Some x; comparison_stats := comparison_stats s |}.
Definition set_comparison_stats (x : Base.comparison_stats) (s : agent_state) : agent_state :=
  {| messages := messages s; documents := documents s; summary := summary s; metadata := metadata s;
     export_path := export_path s; previous_summary := previous_summary s;
     diff_result := diff_result s; comparison_stats := Some x |}.

(** [state["messages"].append(AIMessage(content=...))] *)
Definition append_ai (text : string) : M unit :=
  modify_state (fun s => set_messages (messages s ++ [AIMessage text])%list s).

(** [json.loads(state["messages"][-1].content)]: only the request message
    is JSON; the AI messages the stages append are English sentences. *)
Definition last_params : M params :=
  s ← get_state;
  match List.rev (messages s) with
  | [] => raise IndexError
  | HumanMessage p :: _ => ret p
  | AIMessage _ :: _ => raise JSONDecodeError
  end.

(** [try: body  except Exception as e: append(prefix + str(e)); return state] *)
Definition try_stage (prefix : string) (body : M unit) (w : world) : world :=
  match body w with
  | (Ok _, w') => w'
  | (Raise e, w') => snd (append_ai (prefix +s+ exn_str e) w')
  end.

(** [dict.get(key, default)] on metadata *)
Definition meta_get (m : gmap string string) (key default : string) : string :=
  match m !! key with Some v => v | None => default end.

(** [page_id = metadata.get("id")] is truthy when present and non-empty. *)
Definition truthy_id (m : gmap string string) : option string :=
  match m !! "id" with
  | Some v => if String.eqb v "" then None else Some v
  | None => None
  end.

(** Python's [<] on strings (code-point order). *)
Fixpoint str_ltb (x y : string) : bool :=
  match x, y with
  | EmptyString, EmptyString => false
  | EmptyString, String _ _ => true
  | String _ _, EmptyString => false
  | String c x', String d y' =>
      if (nat_of_ascii c <? nat_of_ascii d)%nat then true
      else if (nat_of_ascii d <? nat_of_ascii c)%nat then false
      else str_ltb x' y'
  end.

Fixpoint insert_desc (x : string) (xs : list string) : list string :=
  match xs with
  | [] => [x]
  | y :: ys => if str_ltb y x then x :: y :: ys else y :: insert_desc x ys
  end.

(** [sorted(paths, reverse=True)] for distinct paths of one directory. *)
Definition sort_desc (xs : list string) : list string := fold_right insert_desc [] xs.

Definition ends_with (suffix s : string) : bool :=
  starts_with (rev_str suffix EmptyString) (rev_str s EmptyString).

(** [f"{space_key}_{page_id}_"] or [f"{space_key}_space_"]: the common
    head of the export file name and of the glob pattern. *)
Definition file_prefix (m : gmap string string) : string :=
  let space_key := meta_get m "space_key" "unknown" in
  match truthy_id m with
  | Some page_id => space_key +s+ "_" +s+ page_id +s+ "_"
  | None => space_key +s+ "_space_"
  end.

(** [export_dir / name] *)
Definition path_join (dir name : string) : string := dir +s+ "/" +s+ name.

(** [Path(export_dir).glob(prefix + "*.md")]: files directly inside the
    directory whose name starts with [prefix] and ends with [.md]. *)
Definition glob_match (dir prefix path : string) : bool :=
  let head := path_join dir prefix in
  starts_with head path && ends_with ".md" path
  && (String.length head + 3 <=? String.length path)%nat
  && negb (contains "/" (drop_n (String.length dir + 1) path)).

Definition glob (fs : gmap string string) (dir prefix : string) : list string :=
  List.filter (glob_match dir prefix) (map fst (map_to_list fs)).

(** [str(n)] and [f"{n:+d}"] *)
Definition fmt_int (z : Z) : string :=
  if (z <? 0)%Z then "-" +s+ str_of_nat (Z.to_nat (- z)) else str_of_nat (Z.to_nat z).
Definition fmt_signed (z : Z) : string :=
  if (z <? 0)%Z then "-" +s+ str_of_nat (Z.to_nat (- z)) else "+" +s+ str_of_nat (Z.to_nat z).

(** [previous_summary.split("## Summary")[1].split("##")[0].strip()] *)
Definition summary_section (text : string) : string :=
  strip (List.hd "" (split_sep "##" (nth 1 (split_sep "## Summary" text) ""))).

(** [f"{state['summary']}"] *)
Definition show_summary (x : option string) : string :=
  match x with Some v => v | None => "None" end.

Definition stats_block (stats : Base.comparison_stats) : string :=
  join str_nl
    [""; "## Comparison Statistics"; ""; "### Overview"; "| Metric | Value |"; "|--------|-------|";
     "| Total Lines | " +s+ fmt_int (new_line_count stats) +s+ " (Change: "
       +s+ fmt_signed (line_difference stats) +s+ ") |";
     "| Changed Sections | " +s+ fmt_int (changed_sections stats) +s+ " |";
     "| Added Sections | " +s+ fmt_int (added_sections stats) +s+ " |";
     "| Removed Sections | " +s+ fmt_int (removed_sections stats) +s+ " |";
     ""; "### Section Changes"; "| Section | Lines | Change | Summary |";
     "|---------|-------|--------|---------|"; ""]
  +s+ String.concat ""
    (map (fun c => "| " +s+ ch_section c +s+ " | " +s+ fmt_int (ch_new_line_count c) +s+ " | "
                   +s+ fmt_signed (ch_diff_line_count c) +s+ " | " +s+ ch_change_summary c
                   +s+ " |" +s+ str_nl)
       (section_changes stats)).

Definition diff_block (diff : string) : string :=
  join str_nl [""; "## Changes from Previous Summary"; ""; "```diff"; diff; "```"; ""].

Section Stages.

Variable E : env.

Definition _load_content : M unit :=
  params ← last_params;
  documents ← lift (load_documents E params);
  modify_state (set_documents documents);;
  match documents with
  | d :: _ => modify_state (set_metadata (doc_metadata d))
  | [] => ret tt
  end.

Definition _prepare_documents : M unit :=
  _ ← get_state;
  append_ai "Documents loaded successfully. Preparing for summarization...".

Definition _generate_summary : M unit :=
  params ← last_params;
  pp ← lift (persona_prompt E (p_persona params));
  s ← get_state;
  summary ← lift (summary_chain E (messages s) (join str_nl (map page_content (documents s))));
  modify_state (set_summary summary);;
  append_ai "Summary generated successfully.".

Definition _compare_summaries : M unit :=
  params ← last_params;
  global "Path";;
  s ← get_state;
  fs ← get_files;
  let previous_files := sort_desc (glob fs (p_export_dir params) (file_prefix (metadata s))) in
  if (1 <? List.length previous_files)%nat then
    let previous_file := nth 1 previous_files "" in
    let text := match fs !! previous_file with Some c => c | None => "" end in
    if contains "## Summary" text then
      let previous := summary_section text in
      new ← match summary s with
            | Some x => ret x
            | None => raise (AttributeError "'NoneType' object has no attribute 'splitlines'")
            end;
      stats ← lift (_calculate_comparison_stats (analysis_chain E) previous new);
      modify_state (set_comparison_stats stats);;
      global "unified_diff";;
      match Difflib.unified_diff (splitlines previous) (splitlines new) with
      | [] => append_ai "No differences from previous summary."
      | diff => modify_state (set_diff_result (join str_nl diff));;
                append_ai "Differences from previous summary found."
      end
    else ret tt
  else ret tt.

Definition _export_summary : M unit :=
  params ← last_params;
  if negb (p_export params) then ret tt else
  global "Path";;                (* export_dir.mkdir(...): directories are not modelled *)
  global "datetime";;
  s ← get_state;
  let filename := file_prefix (metadata s) +s+ now_stamp E +s+ ".md" in
  let title := meta_get (metadata s) "title" "Confluence Content" in
  global "os";;
  global "datetime";;
  let content0 := join str_nl
      ["# " +s+ title; ""; "## Metadata"; "- Author: " +s+ login E; "- Date: " +s+ now_date E; "";
       "## Summary"; show_summary (summary s); ""; ""] in
  let content1 := match comparison_stats s with
                  | Some stats => content0 +s+ stats_block stats
                  | None => content0 end in
  let content2 := match diff_result s with
                  | Some d => if String.eqb d "" then content1 else content1 +s+ diff_block d
                  | None => content1 end in
  global "datetime";;
  let content := content2 +s+ join str_nl [""; "---"; "*Generated on: " +s+ now_date E +s+ "*"; ""] in
  let file_path := path_join (p_export_dir params) filename in
  write_file file_path content;;
  modify_state (set_export_path file_path);;
  append_ai ("Summary exported to: " +s+ file_path).

(** The graph nodes: each stage body inside its [try]/[except]. *)
Definition node (name : string) : option (world -> world) :=
  if String.eqb name "load_content" then Some (try_stage "Error loading content: " _load_content)
  else if String.eqb name "prepare_documents" then Some (try_stage "Error preparing documents: " _prepare_documents)
  else if String.eqb name "generate_summary" then Some (try_stage "Error generating summary: " _generate_summary)
  else if String.eqb name "compare_summaries" then Some (try_stage "Error comparing summaries: " _compare_summaries)
  else if String.eqb name "export_summary" then Some (try_stage "Error exporting summary: " _export_summary)
  else None.

Definition END_node : string := "__end__".

(** [workflow.add_edge(...)] as wired in [_create_agent_graph]. *)
Definition edges : list (string * string) :=
  [("load_content", "prepare_documents"); ("prepare_documents", "generate_summary");
   ("generate_summary", "compare_summaries"); ("compare_summaries", "export_summary");
   ("export_summary", END_node)].

(** [workflow.set_entry_point("load_content")] *)
Definition entry_point : string := "load_content".

(** The [StateGraph(AgentState)] builder after the [add_node], [add_edge]
    and [set_entry_point] calls of [_create_agent_graph], which returns the
    builder itself ([return workflow]): [workflow.compile()] is never
    called. *)
Record state_graph := {
  sg_nodes : list string;
  sg_edges : list (string * string);
  sg_entry : string
}.

Definition initial_state (p : params) : agent_state :=
  {| messages := [HumanMessage p]; documents := []; summary := None; metadata := ∅;
     export_path := None; previous_summary := None; diff_result := None;
     comparison_stats := None |}.

End Stages.

Definition _create_agent_graph : state_graph :=
  {| sg_nodes := ["load_content"; "prepare_documents"; "generate_summary"; "compare_summaries";
                  "export_summary"];
     sg_edges := edges; sg_entry := entry_point |}.

End Summarizer.

Import Summarizer.

(* ------------------------------------------------------------------ *)
(** ** The report in closed form, and concrete inputs *)
(* ------------------------------------------------------------------ *)

Module Report.

(** The body a section title selects: that of the first piece with the
    title, as [next(...)] picks it. *)
Definition section_body (sections : list string) (t : string) : list string :=
  match next_with_title t sections with
  | Ok s => body_lines s
  | Raise _ => []
  end.

(** The entry the loop appends for a common title (none if the bodies'
    unified diff is empty). *)
Definition common_entry (llm : string -> string -> outcome string)
    (old_sections new_sections : list string) (t : string) : list section_change :=
  let ol := section_body old_sections t in
  let nl := section_body new_sections t in
  match Difflib.unified_diff ol nl with
  | [] => []
  | diff =>
      [{| ch_section := t;
          ch_old_line_count := Z.of_nat (List.length ol);
          ch_new_line_count := Z.of_nat (List.length nl);
          ch_diff_line_count := Z.of_nat (List.length diff);
          ch_change_summary := _analyze_section_changes llm (join str_nl ol) (join str_nl nl) |}]
  end.

Definition has_diff (old_sections new_sections : list string) (t : string) : bool :=
  match Difflib.unified_diff (section_body old_sections t) (section_body new_sections t) with
  | [] => false
  | _ => true
  end.

End Report.
Import Report.

Module Fixtures.

(** Documents. *)
Definition doc_intro : string := "## Intro" +s+ str_nl +s+ "Hello".
Definition doc_a_old : string := "## A" +s+ str_nl +s+ "x" +s+ str_nl +s+ "y".
Definition doc_a_new : string := "## A" +s+ str_nl +s+ "x" +s+ str_nl +s+ "z".
Definition doc_plain : string := "Hello" +s+ str_nl +s+ "World".
Definition chr_tab : ascii := Ascii.ascii_of_nat 9.
Definition doc_tab_heading : string := "## " +s+ String chr_tab EmptyString +s+ "Intro ##".

(** An annotator whose service call fails. *)
Definition failing_llm : string -> string -> outcome string :=
  fun _ _ => Raise (ServiceError "timeout").

(** A request for page 42 of space DOC, exported to [summaries]. *)
Definition P0 : params :=
  {| p_space_key := "DOC"; p_page_id := Some "42"; p_include_children := false;
     p_persona := "default"; p_context := None; p_export := true;
     p_export_dir := "summaries" |}.

Definition meta0 : gmap string string :=
  <["space_key" := "DOC"]> (<["id" := "42"]> (<["title" := "Design Notes"]> ∅)).

Definition doc0 : document := {| page_content := "Body"; doc_metadata := meta0 |}.

Definition E0 : env :=
  {| load_documents := fun _ => Ok [doc0];
     persona_prompt := fun _ => Ok "You are a summarizer.";
     summary_chain := fun _ _ => Ok "New line";
     analysis_chain := failing_llm;
     now_stamp := "20240103_000000";
     now_date := "2024-01-03 00:00:00";
     login := "alice" |}.

(** A loader whose fetch fails. *)
Definition E_load_fails : env :=
  {| load_documents := fun _ => Raise (ServiceError "page not found");
     persona_prompt := persona_prompt E0; summary_chain := summary_chain E0;
     analysis_chain := analysis_chain E0; now_stamp := now_stamp E0;
     now_date := now_date E0; login := login E0 |}.

(** Earlier exports of the same page. *)
Definition prior_export (date summary_text : string) : string :=
  join str_nl ["# Design Notes"; ""; "## Metadata"; "- Date: " +s+ date; "";
               "## Summary"; summary_text; ""].

Definition older_file : string := "summaries/DOC_42_20240101_000000.md".
Definition newer_file : string := "summaries/DOC_42_20240102_000000.md".

Definition fs_one : gmap string string :=
  <[older_file := prior_export "2024-01-01" ("Old line" +s+ str_nl +s+ "Second line")]> ∅.
Definition fs_two : gmap string string :=
  <[newer_file := prior_export "2024-01-02" "Newer line"]> fs_one.

(** The state after a successful generation stage. *)
Definition state_generated : agent_state :=
  {| messages := [HumanMessage P0]; documents := [doc0]; summary := Some "New line";
     metadata := meta0; export_path := None; previous_summary := None;
     diff_result := None; comparison_stats := None |}.

End Fixtures.
Import Fixtures.

(* ------------------------------------------------------------------ *)
(** ** core/persona.py and config.py *)

Module Persona.

(** A Python [dict] from strings to strings, in insertion order. *)
Definition dict := list (string * string).

(** [k in d] and [d[k]] *)
Fixpoint dict_get (d : dict) (k : string) : option string :=
  match d with
  | [] => None
  | (k', v) :: t => if String.eqb k k' then Some v else dict_get t k
  end.

(** [d[k] = v]: a present key keeps its place, a new key goes last. *)
Fixpoint dict_set (d : dict) (k v : string) : dict :=
  match d with
  | [] => [(k, v)]
  | (k', v') :: t => if String.eqb k k' then (k', v) :: t else (k', v') :: dict_set t k v
  end.

(** [del d[k]] (for a present key) *)
Definition dict_del (d : dict) (k : string) : dict :=
  List.filter (fun kv => negb (String.eqb k (fst kv))) d.

(** A method either returns or raises [ValueError(msg)]. *)
Inductive presult (A : Type) := PRet (x : A) | PValueError (msg : string).
Arguments PRet {A} x.
Arguments PValueError {A} msg.

Definition technical_prompt : string :=
  join str_nl
    ["You are a technical expert focused on implementation details, code, and technical architecture.";
     "            Your summaries should:";
     "            1. Highlight technical specifications and requirements";
     "            2. Preserve code examples and technical details";
     "            3. Focus on implementation approaches and patterns";
     "            4. Note any technical constraints or limitations";
     "            5. Emphasize system architecture and design decisions"].
Definition business_prompt : string :=
  join str_nl
    ["You are a business analyst focused on objectives, requirements, and business value.";
     "            Your summaries should:";
     "            1. Highlight business objectives and goals";
     "            2. Focus on requirements and use cases";
     "            3. Emphasize business impact and value";
     "            4. Note any business constraints or risks";
     "            5. Summarize key stakeholders and their needs"].
Definition project_prompt : string :=
  join str_nl
    ["You are a project manager focused on timelines, deliverables, and project status.";
     "            Your summaries should:";
     "            1. Highlight project milestones and deadlines";
     "            2. Focus on deliverables and their status";
     "            3. Emphasize dependencies and blockers";
     "            4. Note any risks or issues";
     "            5. Summarize resource allocation and team assignments"].
Definition user_prompt : string :=
  join str_nl
    ["You are a user experience expert focused on usability and user needs.";
     "            Your summaries should:";
     "            1. Highlight user workflows and interactions";
     "            2. Focus on user requirements and needs";
     "            3. Emphasize usability considerations";
     "            4. Note any user feedback or pain points";
     "            5. Summarize user personas and scenarios"].

(** [PersonaManager().personas] *)
Definition default_personas : dict :=
  [("technical", technical_prompt); ("business", business_prompt);
   ("project", project_prompt); ("user", user_prompt)].

Definition get_persona_prompt (personas : dict) (persona : string) : presult string :=
  match dict_get personas persona with
  | None => PValueError ("Unknown persona: " +s+ persona)
  | Some p => PRet p
  end.

Definition add_persona (personas : dict) (name prompt : string) : dict :=
  dict_set personas name prompt.

(** The table after the call; on [ValueError] it is left as it was. *)
Definition remove_persona (personas : dict) (name : string) : presult dict :=
  match dict_get personas name with
  | None => PValueError ("Unknown persona: " +s+ name)
  | Some _ => PRet (dict_del personas name)
  end.

(** [self.personas.copy()] *)
Definition list_personas (personas : dict) : dict := personas.

(** cli.py [list_personas]: the table rows, one per persona with the first
    line of its prompt as description. *)
Definition cli_list_personas_rows : list (string * string) :=
  map (fun '(name, prompt) => (name, strip (List.hd "" (split_nl prompt))))
    (list_personas default_personas).

End Persona.

Module Config.

Record config := {
  confluence_url : string;
  confluence_username : string;
  confluence_api_token : string;
  azure_openai_api_key : string;
  azure_openai_endpoint : string;
  azure_openai_deployment_name : string;
  azure_openai_api_version : string;
  export_dir : string
}.

(** [os.environ] *)
Definition environ := gmap string string.

(** A call either returns or raises [ValueError(msg)]. *)
Inductive cresult (A : Type) := CRet (x : A) | CValueError (msg : string).
Arguments CRet {A} x.
Arguments CValueError {A} msg.

Definition required_vars : list string :=
  ["CONFLUENCE_URL"; "CONFLUENCE_USERNAME"; "CONFLUENCE_API_TOKEN"; "AZURE_OPENAI_API_KEY";
   "AZURE_OPENAI_ENDPOINT"; "AZURE_OPENAI_DEPLOYMENT_NAME"].

(** [not os.getenv(var)]: unset, or set to the empty string. *)
Definition env_missing (env : environ) (var : string) : bool :=
  match env !! var with Some v => String.eqb v "" | None => true end.

(** [os.getenv(var, default)] *)
Definition getenv_default (env : environ) (var default : string) : string :=
  match env !! var with Some v => v | None => default end.

(** [os.getenv(var)] for a variable checked to be set ([None] cannot occur). *)
Definition getenv (env : environ) (var : string) : string := getenv_default env var "".

Definition from_env (env : environ) : cresult config :=
  let missing_vars := List.filter (env_missing env) required_vars in
  match missing_vars with
  | _ :: _ =>
      CValueError ("Missing required environment variables: " +s+ join ", " missing_vars +s+ str_nl
                   +s+ "Please create a 'secrets' file with these variables or set them in your environment.")
  | [] =>
      CRet {| confluence_url := getenv env "CONFLUENCE_URL";
              confluence_username := getenv env "CONFLUENCE_USERNAME";
              confluence_api_token := getenv env "CONFLUENCE_API_TOKEN";
              azure_openai_api_key := getenv env "AZURE_OPENAI_API_KEY";
              azure_openai_endpoint := getenv env "AZURE_OPENAI_ENDPOINT";
              azure_openai_deployment_name := getenv env "AZURE_OPENAI_DEPLOYMENT_NAME";
              azure_openai_api_version := getenv_default env "AZURE_OPENAI_API_VERSION" "2024-02-15-preview";
              export_dir := getenv_default env "EXPORT_DIR" "summaries" |}
  end.

(** What [Path(export_dir)] names on disk. *)
Inductive path_kind := NoSuchPath | Directory | NotADirectory.

(** [s.startswith(('http://', 'https://'))] *)
Definition http_url (s : string) : bool := starts_with "http://" s || starts_with "https://" s.

Definition validate (c : config) (export_path : path_kind) : cresult unit :=
  if negb (http_url (confluence_url c)) then
    CValueError "Confluence URL must start with http:// or https://"
  else if negb (http_url (azure_openai_endpoint c)) then
    CValueError "Azure OpenAI endpoint must start with http:// or https://"
  else match export_path with
       | NotADirectory => CValueError ("Export directory " +s+ export_dir c +s+ " exists but is not a directory")
       | _ => CRet tt
       end.

(** "\r" *)
Definition str_cr : string := String (Ascii.ascii_of_nat 13) EmptyString.

(** Reading in text mode ([newline=None]): "\r\n" and "\r" read as "\n". *)
Fixpoint translate_newlines (s : string) : string :=
  match s with
  | EmptyString => EmptyString
  | String c r =>
      if (nat_of_ascii c =? 13)%nat then
        match r with
        | String d r2 =>
            if (nat_of_ascii d =? 10)%nat then String chr_nl (translate_newlines r2)
            else String chr_nl (translate_newlines r)
        | EmptyString => String chr_nl EmptyString
        end
      else String c (translate_newlines r)
  end.

(** [for line in f]: each line keeps its "\n"; a last line without one is
    read if it is not empty. *)
Fixpoint file_lines (s : string) : list string :=
  match s with
  | EmptyString => []
  | String c r =>
      if Ascii.eqb c chr_nl then String c EmptyString :: file_lines r
      else match file_lines r with
           | l :: t => String c l :: t
           | [] => [String c EmptyString]
           end
  end.

(** [line.split("=", 1)] unpacked into two names: [None] when there is no
    "=" (the unpacking raises). *)
Fixpoint split_eq (s : string) : option (string * string) :=
  match s with
  | EmptyString => None
  | String c r =>
      if Ascii.eqb c "="%char then Some (EmptyString, r)
      else match split_eq r with
           | Some (k, v) => Some (String c k, v)
           | None => None
           end
  end.

(** What ends [load_secrets] early. *)
Inductive secrets_exn :=
| UnpackError          (* ValueError: not enough values to unpack (expected 2, got 1) *)
| EnvRejected (key value : string).  (* os.environ refuses the assignment *)

(** A line of a secrets file as the theorems on [load_secrets] describe
    it: an assignment [KEY=VALUE], or a line the loop skips (blank once
    stripped, or a comment).  A final newline is a last, empty line. *)
Inductive secrets_line := Assign (key value : string) | Skip (text : string).

Definition render_line (l : secrets_line) : string :=
  match l with Assign k v => k +s+ "=" +s+ v | Skip t => t end.

(** The assignments of a file, in order. *)
Definition assignments (ls : list secrets_line) : list (string * string) :=
  flat_map (fun l => match l with Assign k v => [(k, v)] | Skip _ => [] end) ls.

(** A skipped line: blank or a comment once stripped, within one line. *)
Definition skipped_line (t : string) : bool :=
  (String.eqb (strip t) "" || starts_with "#" (strip t)) &&
  negb (contains str_nl t) && negb (contains str_cr t).

Section Secrets.

(** Whether [os.environ[key] = value] is accepted: the platform's [putenv]
    refuses some names and values (an empty name, a NUL character), and
    which ones, with which exception, depends on the Python version. *)
Variable env_accepts : string -> string -> bool.

Fixpoint load_lines (env : environ) (lines : list string) : environ * option secrets_exn :=
  match lines with
  | [] => (env, None)
  | line0 :: t =>
      let line := strip line0 in
      if negb (String.eqb line "") && negb (starts_with "#" line) then
        match split_eq line with
        | None => (env, Some UnpackError)
        | Some (key, value) =>
            if env_accepts (strip key) (strip value) then
              load_lines (<[strip key := strip value]> env) t
            else (env, Some (EnvRejected (strip key) (strip value)))
        end
      else load_lines env t
  end.

(** [load_secrets()]: [secrets] is the text of the file "secrets" when it
    exists.  The result is the environment afterwards and the exception
    that ended the loop, if any (it then propagates out of the import of
    the module). *)
Definition load_secrets (env : environ) (secrets : option string) : environ * option secrets_exn :=
  match secrets with
  | None => (env, None)
  | Some text => load_lines env (file_lines (translate_newlines text))
  end.

(** The lines [KEY=VALUE] the round-trip theorem is about: key and value
    without surrounding whitespace or line breaks, a key without "=" that
    does not start a comment, and an assignment [os.environ] accepts. *)
Definition plain_assignment (kv : string * string) : bool :=
  String.eqb (strip kv.1) kv.1 && String.eqb (strip kv.2) kv.2 &&
  negb (contains "=" kv.1) && negb (starts_with "#" kv.1) &&
  negb (contains str_nl kv.1) && negb (contains str_nl kv.2) &&
  negb (contains str_cr kv.1) && negb (contains str_cr kv.2) &&
  env_accepts kv.1 kv.2.

Definition line_ok (l : secrets_line) : bool :=
  match l with Assign k v => plain_assignment (k, v) | Skip t => skipped_line t end.

End Secrets.

End Config.

Module ConfigFixtures.
Import Config.

(** An environment that accepts every variable with a non-empty name. *)
Definition accepts_nonempty_name (k v : string) : bool := negb (String.eqb k "").

(** A secrets file that sets the six required variables. *)
Definition secrets_full : list (string * string) :=
  [("CONFLUENCE_URL", "https://wiki.example.com"); ("CONFLUENCE_USERNAME", "alice");
   ("CONFLUENCE_API_TOKEN", "t0k3n"); ("AZURE_OPENAI_API_KEY", "k3y");
   ("AZURE_OPENAI_ENDPOINT", "https://ai.example.com"); ("AZURE_OPENAI_DEPLOYMENT_NAME", "gpt")].

(** The same file as it is usually written: a comment first and a final
    newline. *)
Definition secrets_file : list secrets_line :=
  (Skip "# Confluence and Azure OpenAI" :: map (fun kv => Assign kv.1 kv.2) secrets_full ++ [Skip ""])%list.

End ConfigFixtures.

(* ------------------------------------------------------------------ *)
(** ** core/loader.py *)
(* ------------------------------------------------------------------ *)

Module Loader.

(** The JSON values a Confluence REST response decodes to (numbers are
    integers here), as Python objects. A [dict] keeps its insertion order. *)
Inductive pyval :=
| PNone
| PBool (b : bool)
| PInt (z : Z)
| PStr (s : string)
| PList (l : list pyval)
| PDict (d : list (string * pyval)).

(** [type(v).__name__] *)
Definition type_name (v : pyval) : string :=
  match v with
  | PNone => "NoneType"
  | PBool _ => "bool"
  | PInt _ => "int"
  | PStr _ => "str"
  | PList _ => "list"
  | PDict _ => "dict"
  end.

Definition chr_dq : ascii := Ascii.ascii_of_nat 34.
Definition chr_sq : ascii := Ascii.ascii_of_nat 39.
Definition chr_bs : ascii := Ascii.ascii_of_nat 92.

Definition hex_digit (n : nat) : ascii :=
  if (n <? 10)%nat then Ascii.ascii_of_nat (48 + n) else Ascii.ascii_of_nat (87 + n).

(** [str.isprintable] on one character of Latin-1. *)
Definition isprintable (c : ascii) : bool :=
  let n := nat_of_ascii c in
  negb ((n <? 32)%nat || ((127 <=? n) && (n <=? 160))%nat || (n =? 173)%nat).

(** One character of [repr(s)], quoted with [q]. *)
Definition repr_char (q c : ascii) : string :=
  let n := nat_of_ascii c in
  if Ascii.eqb c chr_bs then String chr_bs (String chr_bs EmptyString)
  else if Ascii.eqb c q then String chr_bs (String q EmptyString)
  else if (n =? 9)%nat then String chr_bs "t"
  else if (n =? 10)%nat then String chr_bs "n"
  else if (n =? 13)%nat then String chr_bs "r"
  else if isprintable c then String c EmptyString
  else String chr_bs (String "x" (String (hex_digit (n / 16)) (String (hex_digit (n mod 16)) EmptyString))).

Fixpoint repr_body (q : ascii) (s : string) : string :=
  match s with
  | EmptyString => EmptyString
  | String c r => repr_char q c +s+ repr_body q r
  end.

Fixpoint has_char (c : ascii) (s : string) : bool :=
  match s with
  | EmptyString => false
  | String d r => Ascii.eqb c d || has_char c r
  end.

(** [repr(s)]: single quotes, unless [s] has a single quote and no double one. *)
Definition repr_str (s : string) : string :=
  let q := if has_char chr_sq s && negb (has_char chr_dq s) then chr_dq else chr_sq in
  String q (repr_body q s +s+ String q EmptyString).

(** [repr(v)] *)
Fixpoint py_repr (v : pyval) : string :=
  match v with
  | PNone => "None"
  | PBool b => if b then "True" else "False"
  | PInt z => Summarizer.fmt_int z
  | PStr s => repr_str s
  | PList l => "[" +s+ join ", " (map py_repr l) +s+ "]"
  | PDict d => "{" +s+ join ", " (map (fun kv => repr_str (fst kv) +s+ ": " +s+ py_repr (snd kv)) d) +s+ "}"
  end.

(** [str(v)], which an f-string placeholder [{v}] renders. *)
Definition py_str (v : pyval) : string :=
  match v with
  | PStr s => s
  | _ => py_repr v
  end.

(** What [_create_document] and [load_content] raise. *)
Inductive lexn :=
| LPy (e : py_exn)                 (* an exception of Python or of the client *)
| LValidationError (msg : string)  (* pydantic's, from [Document(...)] *)
| LException (msg : string).       (* [raise Exception(...)] *)

Definition lexn_str (e : lexn) : string :=
  match e with
  | LPy e => exn_str e
  | LValidationError m => m
  | LException m => m
  end.

Inductive lresult (A : Type) := LOk (x : A) | LRaise (e : lexn).
Arguments LOk {A} x.
Arguments LRaise {A} e.

Global Instance lresult_bind : MBind lresult := fun _ _ f m =>
  match m with LOk x => f x | LRaise e => LRaise e end.

Fixpoint assoc_get (d : list (string * pyval)) (k : string) : option pyval :=
  match d with
  | [] => None
  | (k', v) :: t => if String.eqb k k' then Some v else assoc_get t k
  end.

(** [v.get(k, default)]: only a [dict] has [.get]. *)
Definition pyget (v : pyval) (k : string) (default : pyval) : lresult pyval :=
  match v with
  | PDict d => LOk (match assoc_get d k with Some x => x | None => default end)
  | _ => LRaise (LPy (AttributeError ("'" +s+ type_name v +s+ "' object has no attribute 'get'")))
  end.

(** [langchain_core.documents.Document] with its metadata dict. *)
Record ldocument := {
  ld_page_content : string;
  ld_metadata : list (string * pyval)
}.

(** The [atlassian.Confluence] client: each call returns the decoded
    response or raises. *)
Record client := {
  get_page_by_id : string -> string -> outcome pyval;             (* page_id, expand *)
  get_child_pages : string -> string -> outcome (list pyval);     (* page_id, expand *)
  get_all_pages_from_space : string -> string -> outcome (list pyval)  (* space, expand *)
}.

Definition lift {A} (m : outcome A) : lresult A :=
  match m with Ok x => LOk x | Raise e => LRaise (LPy e) end.

Section Client.

Variable config : Config.config.
Variable cl : client.
(** The message of pydantic's [ValidationError] for a [page_content]
    that is not a [str]. *)
Variable validation_message : pyval -> string.

Definition _create_document (page : pyval) : lresult ldocument :=
  b ← pyget page "body" (PDict []);
  s ← pyget b "storage" (PDict []);
  content ← pyget s "value" (PStr "");
  id ← pyget page "id" PNone;
  title ← pyget page "title" PNone;
  sp ← pyget page "space" (PDict []);
  space_key ← pyget sp "key" PNone;
  v1 ← pyget page "version" (PDict []);
  version ← pyget v1 "number" PNone;
  created ← pyget page "created" PNone;
  v2 ← pyget page "version" (PDict []);
  modified ← pyget v2 "when" PNone;
  v3 ← pyget page "version" (PDict []);
  by_ ← pyget v3 "by" (PDict []);
  author ← pyget by_ "displayName" PNone;
  sp' ← pyget page "space" (PDict []);
  key' ← pyget sp' "key" PNone;
  id' ← pyget page "id" PNone;
  let url := PStr (Config.confluence_url config +s+ "/wiki/spaces/" +s+ py_str key'
                   +s+ "/pages/" +s+ py_str id') in
  let metadata := [("id", id); ("title", title); ("space_key", space_key);
                   ("version", version); ("created", created); ("modified", modified);
                   ("author", author); ("url", url)] in
  match content with
  | PStr c => LOk {| ld_page_content := c; ld_metadata := metadata |}
  | _ => LRaise (LValidationError (validation_message content))
  end.

(** [for page in pages: documents.append(self._create_document(page))] *)
Fixpoint create_all (pages : list pyval) : lresult (list ldocument) :=
  match pages with
  | [] => LOk []
  | p :: t => d ← _create_document p; ds ← create_all t; LOk (d :: ds)
  end.

Definition expand : string := "body.storage,version".

Definition load_body (space_key : string) (page_id : option string)
    (include_children : bool) : lresult (list ldocument) :=
  let from_space :=
    pages ← lift (get_all_pages_from_space cl space_key expand);
    create_all pages in
  (* [if page_id:] on an [Optional[str]] *)
  match page_id with
  | Some pid =>
      if String.eqb pid "" then from_space
      else
        page ← lift (get_page_by_id cl pid expand);
        d ← _create_document page;
        if include_children then
          children ← lift (get_child_pages cl pid expand);
          ds ← create_all children;
          LOk (d :: ds)
        else LOk [d]
  | None => from_space
  end.

Definition load_content (space_key : string) (page_id : option string)
    (include_children : bool) : lresult (list ldocument) :=
  match load_body space_key page_id include_children with
  | LOk ds => LOk ds
  | LRaise e => LRaise (LException ("Error loading content from Confluence: " +s+ lexn_str e))
  end.

End Client.

End Loader.

Module LoaderProps.
Import Loader.

(** The keys of a loaded document's metadata, in order. *)
Definition metadata_keys : list string :=
  ["id"; "title"; "space_key"; "version"; "created"; "modified"; "author"; "url"].

(** The metadata of a loaded document: the eight keys, and a [url] built
    from the recorded [space_key] and [id]. *)
Definition doc_ok (config : Config.config) (d : ldocument) : Prop :=
  map fst (ld_metadata d) = metadata_keys /\
  exists sk id,
    assoc_get (ld_metadata d) "space_key" = Some sk /\
    assoc_get (ld_metadata d) "id" = Some id /\
    assoc_get (ld_metadata d) "url" =
      Some (PStr (Config.confluence_url config +s+ "/wiki/spaces/" +s+ py_str sk
                  +s+ "/pages/" +s+ py_str id)).

(** What [_create_document] raises. *)
Definition create_error (validation_message : pyval -> string) (e : lexn) : Prop :=
  (exists t, t <> "dict" /\ e = LPy (AttributeError ("'" +s+ t +s+ "' object has no attribute 'get'"))) \/
  (exists v, (forall s, v <> PStr s) /\ e = LValidationError (validation_message v)).

(** The prefix [load_content] puts on the message of what failed. *)
Definition prefix : string := "Error loading content from Confluence: ".

(** The message of a failure of [_create_document]. *)
Definition failure_message (vm : pyval -> string) (m : string) : Prop :=
  (exists t, t <> "dict" /\ m = "'" +s+ t +s+ "' object has no attribute 'get'") \/
  (exists v, (forall s, v <> PStr s) /\ m = vm v).

End LoaderProps.

Module LoaderFixtures.
Import Loader.

Definition cfg0 : Config.config :=
  {| Config.confluence_url := "https://wiki.example.com";
     Config.confluence_username := "alice";
     Config.confluence_api_token := "t0k3n";
     Config.azure_openai_api_key := "k3y";
     Config.azure_openai_endpoint := "https://ai.example.com";
     Config.azure_openai_deployment_name := "gpt";
     Config.azure_openai_api_version := "2024-02-15-preview";
     Config.export_dir := "summaries" |}.

Definition page_json (id title body : string) : pyval :=
  PDict [("id", PStr id); ("title", PStr title);
         ("space", PDict [("key", PStr "DOC")]);
         ("body", PDict [("storage", PDict [("value", PStr body)])]);
         ("version", PDict [("number", PInt 3); ("when", PStr "2024-05-01T10:00:00Z");
                            ("by", PDict [("displayName", PStr "Ann")])]);
         ("created", PStr "2024-01-01T09:00:00Z")].

(** A page whose [body] is a string rather than an object. *)
Definition page_bad : pyval := PDict [("id", PStr "9"); ("body", PStr "oops")].

Definition client0 : client :=
  {| get_page_by_id := fun pid _ =>
       if String.eqb pid "123" then Ok (page_json "123" "Home" "<p>Hi</p>")
       else if String.eqb pid "9" then Ok page_bad
       else Raise (ServiceError ("Page not found: " +s+ pid));
     get_child_pages := fun pid _ =>
       if String.eqb pid "123" then Ok [page_json "124" "Child" "<p>Child</p>"] else Ok [];
     get_all_pages_from_space := fun sk _ =>
       if String.eqb sk "DOC" then Ok [page_json "123" "Home" "<p>Hi</p>"; page_json "124" "Child" "<p>Child</p>"]
       else Raise (ServiceError ("No space with key " +s+ sk)) |}.

(** A client whose page lookups all fail; its space listing is [client0]'s. *)
Definition client_no_pages : client :=
  {| get_page_by_id := fun pid _ => Raise (ServiceError "unavailable");
     get_child_pages := fun pid _ => Raise (ServiceError "unavailable");
     get_all_pages_from_space := get_all_pages_from_space client0 |}.

Definition vm0 (v : pyval) : string :=
  "1 validation error for Document" +s+ str_nl +s+ "page_content" +s+ str_nl +s+
  "  Input should be a valid string [type=string_type, input_value=" +s+ py_repr v +s+
  ", input_type=" +s+ type_name v +s+ "]".

End LoaderFixtures.

(* ------------------------------------------------------------------ *)
(** ** agent/base.py and agent/summarizer.py: building and running an agent *)
(* ------------------------------------------------------------------ *)

Module Agent.
Import Summarizer.

(** [AttributeError] raised by [obj.name] on an instance of [cls]. *)
Definition attribute_error (cls name : string) : py_exn :=
  AttributeError ("'" +s+ cls +s+ "' object has no attribute '" +s+ name +s+ "'").

(** The attributes of a [Config] instance: the dataclass's fields and its
    methods. *)
Definition config_attrs : list string :=
  ["confluence_url"; "confluence_username"; "confluence_api_token"; "azure_openai_api_key";
   "azure_openai_endpoint"; "azure_openai_deployment_name"; "azure_openai_api_version";
   "export_dir"; "from_env"; "validate"].

(** [config.name] on a [Config] instance. *)
Definition config_getattr (name : string) : outcome unit :=
  if existsb (String.eqb name) config_attrs then Ok tt else Raise (attribute_error "Config" name).

(** A [ConfluenceSummarizerAgent]: [self.config], the collaborators its
    stages talk to, and [self.graph]. *)
Record agent := {
  agent_config : Config.config;
  agent_env : env;
  agent_graph : state_graph
}.

Section Construct.

(** The LLM client and the document loader that [__init__] builds from the
    configuration once its arguments are evaluated. *)
Variable services : Config.config -> env.

(** [ConfluenceSummarizerAgent(config)]: [BaseConfluenceAgent.__init__]
    sets [self.config] and [self.persona_manager = PersonaManager()], then
    evaluates the arguments of [AzureOpenAI(...)], the first being
    [config.azure_openai.deployment_name]; [self.graph] is set last. *)
Definition ConfluenceSummarizerAgent (config : Config.config) : outcome agent :=
  match config_getattr "azure_openai" with
  | Raise e => Raise e
  | Ok _ => Ok {| agent_config := config; agent_env := services config;
                  agent_graph := _create_agent_graph |}
  end.

End Construct.

(** [agent.summarize(...)]: it builds [initial_state], the request being
    its first message, then evaluates [self.graph.invoke(initial_state)].
    [self.graph] is the [StateGraph] builder [_create_agent_graph] returns,
    and a builder has no [invoke] (that is a method of the graph
    [compile()] returns): the attribute lookup raises before any node
    runs, and the method returns nothing. *)
Definition summarize (self : agent) (p : params) : outcome agent_state :=
  let state := initial_state p in
  Raise (attribute_error "StateGraph" "invoke").

End Agent.

(* ------------------------------------------------------------------ *)
(** ** cli.py: [display_diff], [compare] and the [summarize] command *)
(* ------------------------------------------------------------------ *)

Module Cli.
Import Summarizer.

(** What the commands hand to [console.print] (column styles, box and
    header styles are presentation and left out). *)
Inductive printed :=
| PMarkup (s : string)                                  (* a str, with rich markup *)
| PMarkdown (s : string)                                (* [Markdown(s)] *)
| PSyntax (code lexer : string)                         (* [Syntax(code, lexer, ...)] *)
| PTable (title : string) (columns : list string) (rows : list (list string)).

(** How a click command ends: normally, with [raise click.Abort()], or
    with a usage error that click reports before the body runs (exit
    status 2, the message after "Error: "). *)
Inductive cli_exit := Completed | Aborted | UsageError (msg : string).

(** A command body either returns or raises; an exception carries its [str(e)]. *)
Inductive ires (A : Type) := IOk (x : A) | IErr (msg : string).
Arguments IOk {A} x.
Arguments IErr {A} msg.

(** The console output so far is threaded through the body. *)
Definition IO (A : Type) : Type := list printed -> ires A * list printed.

Global Instance IO_ret : MRet IO := fun _ x out => (IOk x, out).
Global Instance IO_bind : MBind IO := fun _ _ f m out =>
  match m out with
  | (IOk x, out') => f x out'
  | (IErr e, out') => (IErr e, out')
  end.

Definition print (p : printed) : IO unit := fun out => (IOk tt, (out ++ [p])%list).
Definition raise_msg {A} (msg : string) : IO A := fun out => (IErr msg, out).

Definition lift {A} (m : outcome A) : IO A :=
  match m with Ok x => mret x | Raise e => raise_msg (exn_str e) end.

Definition lift_c {A} (m : Config.cresult A) : IO A :=
  match m with Config.CRet x => mret x | Config.CValueError msg => raise_msg msg end.

(** [try: body except Exception as e: console.print(f"[red]Error: {str(e)}[/red]"); raise click.Abort()] *)
Definition run_command (body : IO unit) : list printed * cli_exit :=
  match body [] with
  | (IOk _, out) => (out, Completed)
  | (IErr msg, out) => ((out ++ [PMarkup ("[red]Error: " +s+ msg +s+ "[/red]")])%list, Aborted)
  end.

(** Module-level names bound in cli.py; [unified_diff] is not among them. *)
Definition cli_globals : list string :=
  ["click"; "Console"; "Table"; "Panel"; "Markdown"; "Syntax"; "Text"; "Style"; "box";
   "os"; "Path"; "datetime"; "json"; "Optional"; "List"; "Dict"; "re"; "Config";
   "ConfluenceSummarizerAgent"; "PersonaManager"; "console"; "extract_metadata_from_file";
   "display_diff"; "cli"; "summarize"; "compare"; "list_personas"].

Definition global (name : string) : IO unit :=
  if existsb (String.eqb name) cli_globals then mret tt
  else raise_msg (exn_str (NameError name)).

(** *** Regular expressions of [display_diff] *)

(** [s] begins with one or more "#" and a space: a match of [#+ ] at 0. *)
Fixpoint heading_start (s : string) : bool :=
  match s with
  | String c r => Ascii.eqb c "#"%char && (starts_with " " r || heading_start r)
  | EmptyString => false
  end.

Fixpoint drop_hashes (s : string) : string :=
  match s with
  | String c r => if Ascii.eqb c "#"%char then drop_hashes r else s
  | EmptyString => EmptyString
  end.

(** The text up to the first "\n". *)
Fixpoint first_line (s : string) : string :=
  match s with
  | String c r => if Ascii.eqb c chr_nl then EmptyString else String c (first_line r)
  | EmptyString => EmptyString
  end.

(** [re.split(r'(?=^#+ )', s, flags=re.MULTILINE)]: cut before every line
    start where a heading begins; a cut at 0 gives a leading empty piece. *)
Fixpoint re_split_headings_aux (line_start : bool) (s : string) : list string :=
  match s with
  | EmptyString => [EmptyString]
  | String c r =>
      let ps := match re_split_headings_aux (Ascii.eqb c chr_nl) r with
                | p :: t => String c p :: t
                | [] => [String c EmptyString]
                end in
      if line_start && heading_start s then EmptyString :: ps else ps
  end.

Definition re_split_headings (s : string) : list string := re_split_headings_aux true s.

(** [re.match(r'^(#+ )(.+)$', s, re.MULTILINE).group(2)]: the rest of the
    first line after the hashes and one space, if not empty. *)
Definition title_of (s : string) : option string :=
  if heading_start s then
    match drop_hashes s with
    | String _ rest =>
        let g := first_line rest in
        if String.eqb g "" then None else Some g
    | EmptyString => None
    end
  else None.

(** [re.match(r'^#+ ' + re.escape(title), s, re.MULTILINE)] *)
Definition title_prefix_match (title s : string) : bool :=
  starts_with "#" s && starts_with (" " +s+ title) (drop_hashes s).

(** *** [display_diff] *)

Definition section_columns : list string := ["Section"; "Old Lines"; "New Lines"; "Changes"; "Summary"].

(** The first loop, over the old sections; the rows added so far are
    lost if it raises. *)
Fixpoint old_section_rows (olds news : list string) : IO (list (list string)) :=
  match olds with
  | [] => mret []
  | old_section :: t =>
      if negb (strip_truthy old_section) then old_section_rows t news else
      match title_of old_section with
      | None => old_section_rows t news
      | Some g =>
          let section_title := strip g in
          let new_section := List.find (fun s => strip_truthy s && title_prefix_match section_title s) news in
          let old_lines := List.length (splitlines old_section) in
          match new_section with
          | Some ns =>
              if negb (String.eqb ns "") then
                let new_lines := List.length (splitlines ns) in
                let diff_lines := (Z.of_nat new_lines - Z.of_nat old_lines)%Z in
                _ ← global "unified_diff";
                let diff := Difflib.unified_diff (splitlines old_section) (splitlines ns) in
                let summary := match diff with
                               | [] => "No changes"
                               | _ => "Content updated" +s+
                                        (if (0 <? diff_lines)%Z then " (+" +s+ fmt_int diff_lines +s+ " lines)"
                                         else if (diff_lines <? 0)%Z then " (" +s+ fmt_int diff_lines +s+ " lines)"
                                         else "")
                               end in
                rest ← old_section_rows t news;
                mret ([section_title; str_of_nat old_lines; str_of_nat new_lines; fmt_signed diff_lines; summary] :: rest)
              else
                rest ← old_section_rows t news;
                mret ([section_title; str_of_nat old_lines; "0"; "-" +s+ str_of_nat old_lines; "Section removed"] :: rest)
          | None =>
              rest ← old_section_rows t news;
              mret ([section_title; str_of_nat old_lines; "0"; "-" +s+ str_of_nat old_lines; "Section removed"] :: rest)
          end
      end
  end.

(** The second loop, over the new sections. *)
Fixpoint new_section_rows (olds news : list string) : list (list string) :=
  match news with
  | [] => []
  | new_section :: t =>
      if negb (strip_truthy new_section) then new_section_rows olds t else
      match title_of new_section with
      | None => new_section_rows olds t
      | Some g =>
          let section_title := strip g in
          if negb (existsb (fun s => strip_truthy s && title_prefix_match section_title s) olds) then
            let new_lines := List.length (splitlines new_section) in
            [section_title; "0"; str_of_nat new_lines; "+" +s+ str_of_nat new_lines; "New section"]
              :: new_section_rows olds t
          else new_section_rows olds t
      end
  end.

Definition display_diff (old_content new_content : string) : IO unit :=
  let old_sections := re_split_headings old_content in
  let new_sections := re_split_headings new_content in
  rows ← old_section_rows old_sections new_sections;
  print (PTable "Section Changes" section_columns
           (rows ++ new_section_rows old_sections new_sections)%list);;
  print (PMarkup (str_nl +s+ "Detailed Changes:"));;
  _ ← global "unified_diff";
  let diff := Difflib.unified_diff (splitlines old_content) (splitlines new_content) in
  match diff with
  | [] => print (PMarkup "[green]No changes found[/green]")
  | _ => print (PSyntax (join str_nl diff) "diff")
  end.

(** Some old section with a title has a match among the new sections: the
    first loop of [display_diff] reaches [unified_diff] there. *)
Definition common_section (olds news : list string) : bool :=
  existsb (fun s => strip_truthy s &&
    match title_of s with
    | Some g => existsb (fun n => strip_truthy n && title_prefix_match (strip g) n) news
    | None => false
    end) olds.

(** *** [extract_metadata_from_file] and [compare] *)

(** [re.search(r'^# (.+)$', content, re.MULTILINE).group(1)] *)
Definition search_title (content : string) : option string :=
  match List.find (fun l => starts_with "# " l && (2 <? String.length l)%nat) (split_nl content) with
  | Some l => Some (drop_n 2 l)
  | None => None
  end.

(** The text after the first occurrence of [sep], if any. *)
Fixpoint after_first (fuel : nat) (sep s : string) : option string :=
  match fuel with
  | 0 => None
  | S f =>
      if starts_with sep s then Some (drop_n (String.length sep) s)
      else match s with
           | EmptyString => None
           | String _ r => after_first f sep r
           end
  end.

(** [re.search(r'## Metadata\n(.*?)(?=\n\n|\Z)', content, re.DOTALL).group(1)] *)
Definition search_metadata (content : string) : option string :=
  match after_first (S (String.length content)) ("## Metadata" +s+ str_nl) content with
  | Some rest => Some (List.hd "" (split_sep (str_nl +s+ str_nl) rest))
  | None => None
  end.

(** [re.search(r'Generated on: (.+)$', content, re.MULTILINE).group(1)] *)
Fixpoint search_generated (s : string) : option string :=
  match s with
  | EmptyString => None
  | String _ r =>
      let g := first_line (drop_n 14 s) in
      if starts_with "Generated on: " s && negb (String.eqb g "") then Some g
      else search_generated r
  end.

(** [key, value = line.split(':', 1)] for a line with a ':' *)
Fixpoint split_colon (s : string) : option (string * string) :=
  match s with
  | EmptyString => None
  | String c r =>
      if Ascii.eqb c ":"%char then Some (EmptyString, r)
      else match split_colon r with
           | Some (k, v) => Some (String c k, v)
           | None => None
           end
  end.

Definition metadata_lines (d : Persona.dict) (lines : list string) : Persona.dict :=
  fold_left (fun d line =>
    if contains ":" line then
      match split_colon line with
      | Some (key, value) => Persona.dict_set d (strip key) (strip value)
      | None => d
      end
    else d) lines d.

(** The file's title and metadata dict. *)
Record summary_file := {
  sf_title : string;
  sf_metadata : Persona.dict
}.

Section Files.

(** [Path(p).read_text(encoding='utf-8')] *)
Variable read_text : string -> outcome string.
(** The iteration order of a Python set of strings (it depends on the
    string hashes of the run). *)
Variable set_iter : gset string -> list string.
(** Whether a path exists ([os.stat] succeeds). *)
Variable path_exists : string -> bool.

Definition extract_metadata_from_file (file_path : string) : IO summary_file :=
  content ← lift (read_text file_path);
  let title := match search_title content with Some t => t | None => "Unknown" end in
  let metadata := match search_metadata content with
                  | Some metadata_text => metadata_lines [] (split_nl metadata_text)
                  | None => []
                  end in
  let metadata := match search_generated content with
                  | Some ts => Persona.dict_set metadata "generated_at" ts
                  | None => metadata
                  end in
  mret {| sf_title := title; sf_metadata := metadata |}.

Definition get_na (d : Persona.dict) (k : string) : string :=
  match Persona.dict_get d k with Some v => v | None => "N/A" end.

Definition compare_body (file1 file2 : string) : IO unit :=
  metadata1 ← extract_metadata_from_file file1;
  metadata2 ← extract_metadata_from_file file2;
  let keys := set_iter (list_to_set (map fst (sf_metadata metadata1)) ∪
                        list_to_set (map fst (sf_metadata metadata2))) in
  print (PTable "Summary Comparison - Metadata" ["Property"; "File 1"; "File 2"]
           (map (fun key => [key; get_na (sf_metadata metadata1) key; get_na (sf_metadata metadata2) key]) keys));;
  content1 ← lift (read_text file1);
  content2 ← lift (read_text file2);
  display_diff content1 content2.

(** [click.Path(exists=True)] on the argument [name]: the usage error for
    a path that does not exist. *)
Definition check_path (name path : string) : option string :=
  if path_exists path then None
  else Some ("Invalid value for '" +s+ name +s+ "': Path " +s+ Loader.repr_str path +s+ " does not exist.").

(** The [compare] command: click converts [FILE1], then [FILE2], then runs
    the body. *)
Definition compare (file1 file2 : string) : list printed * cli_exit :=
  match check_path "FILE1" file1 with
  | Some msg => ([], UsageError msg)
  | None =>
      match check_path "FILE2" file2 with
      | Some msg => ([], UsageError msg)
      | None => run_command (compare_body file1 file2)
      end
  end.

End Files.

(** *** The [summarize] command *)

Definition chr_bs : ascii := Loader.chr_bs.
Definition chr_dq : ascii := Loader.chr_dq.

(** One character of [json.dumps] output ([ensure_ascii=True]). *)
Definition json_char (c : ascii) : string :=
  let n := nat_of_ascii c in
  if Ascii.eqb c chr_dq then String chr_bs (String chr_dq EmptyString)
  else if Ascii.eqb c chr_bs then String chr_bs (String chr_bs EmptyString)
  else if (n =? 10)%nat then String chr_bs "n"
  else if (n =? 13)%nat then String chr_bs "r"
  else if (n =? 9)%nat then String chr_bs "t"
  else if (n =? 8)%nat then String chr_bs "b"
  else if (n =? 12)%nat then String chr_bs "f"
  else if (n <? 32)%nat || (126 <? n)%nat then
    String chr_bs (String "u" (String "0" (String "0"
      (String (Loader.hex_digit (n / 16)) (String (Loader.hex_digit (n mod 16)) EmptyString)))))
  else String c EmptyString.

Fixpoint json_chars (s : string) : string :=
  match s with
  | EmptyString => EmptyString
  | String c r => json_char c +s+ json_chars r
  end.

Definition json_str (s : string) : string :=
  String chr_dq (json_chars s +s+ String chr_dq EmptyString).

Definition json_opt_str (s : option string) : string :=
  match s with Some s => json_str s | None => "null" end.

Definition json_bool (b : bool) : string := if b then "true" else "false".

(** [json.dumps({...})] of the request, keys in the source's order. *)
Definition json_dumps_params (p : params) : string :=
  "{" +s+ join ", "
    [json_str "space_key" +s+ ": " +s+ json_str (p_space_key p);
     json_str "page_id" +s+ ": " +s+ json_opt_str (p_page_id p);
     json_str "include_children" +s+ ": " +s+ json_bool (p_include_children p);
     json_str "persona" +s+ ": " +s+ json_str (p_persona p);
     json_str "context" +s+ ": " +s+ json_opt_str (p_context p);
     json_str "export" +s+ ": " +s+ json_bool (p_export p);
     json_str "export_dir" +s+ ": " +s+ json_str (p_export_dir p)] +s+ "}".

(** [msg.content] *)
Definition message_content (m : message) : string :=
  match m with
  | HumanMessage p => json_dumps_params p
  | AIMessage c => c
  end.

(** The dict [agent.summarize] returns. *)
Record result := {
  r_summary : option string;
  r_export_path : option string;
  r_messages : list string;
  r_diff_result : option string;
  r_comparison_stats : option Base.comparison_stats
}.

(** The dict [summarize] builds from [final_state]. *)
Definition result_of (final_state : agent_state) : result :=
  {| r_summary := summary final_state;
     r_export_path := export_path final_state;
     r_messages := map message_content (messages final_state);
     r_diff_result := diff_result final_state;
     r_comparison_stats := comparison_stats final_state |}.

(** [bool(s)] of an optional string *)
Definition truthy (s : option string) : bool :=
  match s with Some s => negb (String.eqb s "") | None => false end.

Fixpoint print_messages (ms : list string) : IO unit :=
  match ms with
  | [] => mret tt
  | m :: t =>
      (if starts_with "Error" m then print (PMarkup ("[red]" +s+ m +s+ "[/red]"))
       else print (PMarkup ("[blue]" +s+ m +s+ "[/blue]")));;
      print_messages t
  end.

(** The markup a message is printed with. *)
Definition colour (m : string) : printed :=
  if starts_with "Error" m then PMarkup ("[red]" +s+ m +s+ "[/red]")
  else PMarkup ("[blue]" +s+ m +s+ "[/blue]").

Definition keyerror (k : string) : string := "'" +s+ k +s+ "'".

Section Command.

(** [os.environ] after [load_secrets()], and what [Path(export_dir)] is. *)
Variable environ : Config.environ.
Variable export_dir_kind : string -> Config.path_kind.
(** The collaborators the agent's constructor builds. *)
Variable services : Config.config -> env.

Definition summarize_body (space_key : string) (page_id : option string) (include_children : bool)
    (persona : string) (context : option string) (export : bool) (export_dir : string) : IO unit :=
  config ← lift_c (Config.from_env environ);
  _ ← lift_c (Config.validate config (export_dir_kind (Config.export_dir config)));
  agent ← lift (Agent.ConfluenceSummarizerAgent services config);
  final_state ← lift (Agent.summarize agent
    {| p_space_key := space_key; p_page_id := page_id; p_include_children := include_children;
       p_persona := persona; p_context := context; p_export := export; p_export_dir := export_dir |});
  let result := result_of final_state in
  (match r_summary result with
   | Some s =>
       if negb (String.eqb s "") then
         print (PMarkup (str_nl +s+ "[bold green]Summary Generated:[/bold green]"));;
         print (PMarkdown s);;
         (if truthy (r_export_path result) then
            match r_export_path result with
            | Some ep => print (PMarkup (str_nl +s+ "[bold blue]Summary exported to:[/bold blue] " +s+ ep))
            | None => mret tt
            end
          else mret tt);;
         (if truthy (r_diff_result result) then
            print (PMarkup (str_nl +s+ "[bold yellow]Changes from previous summary:[/bold yellow]"));;
            (* [result["previous_summary"]]: the dict has no such key *)
            raise_msg (keyerror "previous_summary")
          else mret tt)
       else mret tt
   | None => mret tt
   end);;
  print_messages (r_messages result).

Definition cli_summarize space_key page_id include_children persona context export export_dir
    : list printed * cli_exit :=
  run_command (summarize_body space_key page_id include_children persona context export export_dir).

End Command.

End Cli.

Module CliFixtures.
Import Cli.

Definition lines (ls : list string) : string := join str_nl ls.

(** Two exported summaries of the same space. *)
Definition summary_v1 : string :=
  lines ["# Summary of DOC"; ""; "## Metadata"; "- Pages: 2"; "- Persona: technical"; "";
         "## Summary"; "First draft."; ""; "Generated on: 2024-05-01 10:00:00"].

Definition summary_v2 : string :=
  lines ["# Summary of DOC"; ""; "## Metadata"; "- Pages: 3"; "- Persona: business"; "";
         "## Summary"; "Second draft."; ""; "Generated on: 2024-06-01 10:00:00"].

(** Two texts with no section title in common. *)
Definition notes_old : string := lines ["## Goals"; "Ship it."; "## Risks"; "None."].
Definition notes_new : string := lines ["## Plan"; "Ship it soon."].

Definition read_two (path : string) : outcome string :=
  if String.eqb path "v1.md" then Ok summary_v1
  else if String.eqb path "v2.md" then Ok summary_v2
  else Raise (ServiceError ("[Errno 2] No such file or directory: '" +s+ path +s+ "'")).

End CliFixtures.

(* ------------------------------------------------------------------ *)
(** ** Effects of a stage body on the shared state *)
(* ------------------------------------------------------------------ *)

Module StageFrames.

(** A stage computation that keeps the earlier messages and appends at most
    [n] new ones, and appends nothing on a path that then raises. *)
Definition appends_le (n : nat) {A} (m : M A) : Prop :=
  forall w, match m w with
  | (Ok _, w') => exists l, messages (st w') = (messages (st w) ++ l)%list /\ List.length l <= n
  | (Raise _, w') => messages (st w') = messages (st w)
  end.

(** A stage computation that leaves the files on disk as they are. *)
Definition keeps_files {A} (m : M A) : Prop := forall w, files (snd (m w)) = files w.

End StageFrames.
Import StageFrames.

(* ------------------------------------------------------------------ *)
(** ** Comparing a line sequence with itself *)
(* ------------------------------------------------------------------ *)

Module DiffSelf.
Import Difflib.
Local Open Scope nat_scope.

Section Diagonal.

Variable a : list string.
Variables lo hi : nat.
Hypothesis Hlohi : lo <= hi.
Hypothesis Hhi : hi <= List.length a.

(** Position [(i, j)] is an entry of row [i] of the dynamic programme. *)
Definition cell (i j : nat) : bool :=
  (lo <=? i) && (i <? hi) && (lo <=? j) && (j <? hi)
  && String.eqb (elt a j) (elt a i) && negb (popular a (elt a i)).

(** The value [newj2len[j]] takes in row [i]: the length of the run of
    cells ending at [(i, j)]. *)
Fixpoint run (i j : nat) {struct i} : nat :=
  if cell i j then
    S (match i, j with
       | S i', S j' => if lo <=? i' then run i' j' else 0
       | _, _ => 0
       end)
  else 0.

Lemma run_unfold i j :
  run i j = if cell i j then
              S (match i, j with
                 | S i', S j' => if lo <=? i' then run i' j' else 0
                 | _, _ => 0
                 end)
            else 0.
Proof. destruct i; reflexivity. Qed.

Lemma cell_true i j :
  cell i j = true ->
  lo <= i /\ i < hi /\ lo <= j /\ j < hi /\ elt a j = elt a i /\ popular a (elt a i) = false.
Proof.
  unfold cell. intros H.
  repeat rewrite andb_true_iff in H.
  destruct H as [[[[[H1 H2] H3] H4] H5] H6].
  apply Nat.leb_le in H1. apply Nat.ltb_lt in H2.
  apply Nat.leb_le in H3. apply Nat.ltb_lt in H4.
  apply String.eqb_eq in H5. apply negb_true_iff in H6.
  tauto.
Qed.

Lemma cell_intro i j :
  lo <= i -> i < hi -> lo <= j -> j < hi -> elt a j = elt a i ->
  popular a (elt a i) = false -> cell i j = true.
Proof.
  intros H1 H2 H3 H4 H5 H6. unfold cell.
  apply Nat.leb_le in H1. apply Nat.ltb_lt in H2.
  apply Nat.leb_le in H3. apply Nat.ltb_lt in H4.
  rewrite H1, H2, H3, H4, H5, H6, String.eqb_refl. reflexivity.
Qed.

Lemma run_pos i j : 0 < run i j -> cell i j = true.
Proof. rewrite run_unfold. destruct (cell i j); [reflexivity | lia]. Qed.

(** A run never reaches back before [lo]. *)
Lemma run_bound i j : run i j <= S i - lo.
Proof.
  revert j. induction i as [|i IH]; intros j; rewrite run_unfold.
  - destruct (cell 0 j) eqn:C; [|lia].
    apply cell_true in C. lia.
  - destruct (cell (S i) j) eqn:C; [|lia].
    apply cell_true in C.
    destruct j as [|j]; [lia|].
    destruct (lo <=? i) eqn:L.
    + apply Nat.leb_le in L. specialize (IH j). lia.
    + apply Nat.leb_gt in L. lia.
Qed.

(** Every run is dominated by the run on the diagonal at the smaller
    coordinate. *)
Lemma run_diag_dom i j : run i j <= run (Nat.min i j) (Nat.min i j).
Proof.
  revert j. induction i as [|i IH]; intros j.
  - rewrite Nat.min_0_l.
    destruct (run 0 j) eqn:R; [lia|].
    assert (C : cell 0 j = true) by (apply run_pos; lia).
    pose proof (cell_true _ _ C) as (H1 & H2 & H3 & H4 & H5 & H6).
    rewrite run_unfold in R. rewrite C in R. simpl in R.
    rewrite run_unfold. rewrite (cell_intro 0 0) by (auto; lia). simpl. lia.
  - destruct (run (S i) j) eqn:R; [lia|].
    assert (C : cell (S i) j = true) by (apply run_pos; lia).
    pose proof (cell_true _ _ C) as (H1 & H2 & H3 & H4 & H5 & H6).
    set (m := Nat.min (S i) j).
    assert (Cm : cell m m = true).
    { apply cell_intro; unfold m; try lia; [reflexivity|].
      destruct (Nat.min_spec (S i) j) as [[_ E]|[_ E]]; rewrite E;
        [exact H6 | rewrite H5; exact H6]. }
    rewrite run_unfold in R. rewrite C in R.
    rewrite (run_unfold m m), Cm.
    destruct j as [|j].
    + lia.
    + assert (Hm : m = S (Nat.min i j)) by (unfold m; simpl; reflexivity).
      rewrite Hm. cbn -[run Nat.min Nat.leb].
      destruct (lo <=? i) eqn:L; injection R as R; [|lia].
      destruct n as [|n']; [lia|].
      assert (Cij : cell i j = true) by (apply run_pos; lia).
      apply cell_true in Cij.
      assert (Lm : (lo <=? Nat.min i j) = true) by (apply Nat.leb_le; lia).
      rewrite Lm. specialize (IH j). lia.
Qed.

(** Invariants of [find_longest_match]'s loops on [a] against itself:
    [prev_ok] for the previous row's [j2len], [cur_ok] for the row being
    built up to column [s], [best_ok] for the best block so far. *)
Definition prev_ok (i : nat) (d : list (nat * nat)) : Prop :=
  forall j, j2len_get d j = match i with S i' => if lo <=? i' then run i' j else 0 | 0 => 0 end.

Definition cur_ok (i s : nat) (nd : list (nat * nat)) : Prop :=
  forall j, j2len_get nd j = if j <? s then run i j else 0.

Definition best_ok (i s : nat) (best : match_t) : Prop :=
  let '(bi, bj, bs) := best in
  bi = bj /\ lo <= bi /\ bi + bs <= hi /\
  (forall i' j, i' < i -> run i' j <= bs) /\ (forall j, j < s -> run i j <= bs).

Lemma run_out i j : hi <= j -> run i j = 0.
Proof.
  intros H. rewrite run_unfold.
  destruct (cell i j) eqn:C; [|reflexivity].
  apply cell_true in C. lia.
Qed.

Lemma run_not_cell i j : cell i j = false -> run i j = 0.
Proof. intros C. rewrite run_unfold, C. reflexivity. Qed.

Lemma k_eq i j d :
  prev_ok i d -> cell i j = true ->
  match j with 0 => 0 | S j' => j2len_get d j' end + 1 = run i j.
Proof.
  intros Hd C. rewrite (run_unfold i j), C.
  destruct j as [|j].
  - destruct i; reflexivity.
  - rewrite Hd. destruct i; simpl; lia.
Qed.

Lemma best_step i s bi bj bs :
  lo <= i -> best_ok i s (bi, bj, bs) -> cell i s = true ->
  best_ok i (S s)
    (if bs <? run i s then (S i - run i s, S s - run i s, run i s) else (bi, bj, bs)).
Proof.
  intros Hi (E & B1 & B2 & Rows & Cols) C.
  pose proof (cell_true _ _ C) as (C1 & C2 & C3 & C4 & C5 & C6).
  destruct (bs <? run i s) eqn:B.
  - apply Nat.ltb_lt in B.
    destruct (lt_eq_lt_dec s i) as [[Lt|Eq]|Gt].
    + exfalso. pose proof (run_diag_dom i s) as D.
      rewrite Nat.min_r in D by lia.
      specialize (Rows s s Lt). lia.
    + subst s. pose proof (run_bound i i) as Bd.
      repeat split; try lia.
      * intros i' j Hi'. specialize (Rows i' j Hi'). lia.
      * intros j Hj. destruct (Nat.eq_dec j i) as [->|Ne]; [lia|].
        specialize (Cols j ltac:(lia)). lia.
    + exfalso. pose proof (run_diag_dom i s) as D.
      rewrite Nat.min_l in D by lia.
      specialize (Cols i Gt). lia.
  - apply Nat.ltb_ge in B.
    repeat split; auto.
    intros j Hj. destruct (Nat.eq_dec j s) as [->|Ne]; [lia|].
    apply Cols. lia.
Qed.

Lemma cols_spec i d :
  lo <= i -> i < hi -> popular a (elt a i) = false -> prev_ok i d ->
  forall len s nd best,
    s + len = List.length a -> cur_ok i s nd -> best_ok i s best ->
    cur_ok i (List.length a)
      (fst (flm_cols i lo hi (List.filter (fun j => String.eqb (elt a j) (elt a i)) (seq s len)) d nd best))
    /\ best_ok i (List.length a)
      (snd (flm_cols i lo hi (List.filter (fun j => String.eqb (elt a j) (elt a i)) (seq s len)) d nd best)).
Proof.
  intros Hi1 Hi2 Hnp Hd.
  induction len as [|len IH]; intros s nd best Hlen Hnd Hb.
  - simpl. rewrite Nat.add_0_r in Hlen. subst s. split; assumption.
  - (* a column with no entry: [run i s] is 0 *)
    assert (Skip : run i s = 0 -> cur_ok i (S s) nd /\ best_ok i (S s) best).
    { intros R0. split.
      - intros j. rewrite Hnd.
        destruct (Nat.eq_dec j s) as [->|Ne].
        + rewrite Nat.ltb_irrefl, R0. destruct (s <? S s); reflexivity.
        + destruct (j <? s) eqn:J1; destruct (j <? S s) eqn:J2; try reflexivity;
            apply Nat.ltb_lt in J1 || apply Nat.ltb_ge in J1;
            apply Nat.ltb_lt in J2 || apply Nat.ltb_ge in J2; lia.
      - destruct best as [[bi bj] bs].
        destruct Hb as (E & B1 & B2 & Rows & Cols).
        repeat split; auto.
        intros j Hj. destruct (Nat.eq_dec j s) as [->|Ne]; [lia|].
        apply Cols. lia. }
    simpl seq. cbn [List.filter].
    destruct (String.eqb (elt a s) (elt a i)) eqn:Es.
    + cbn [flm_cols].
      destruct (s <? lo) eqn:L1.
      * apply Nat.ltb_lt in L1.
        assert (R0 : run i s = 0).
        { apply run_not_cell. destruct (cell i s) eqn:C; [|reflexivity].
          apply cell_true in C. lia. }
        destruct (Skip R0) as [H1 H2].
        apply IH; [lia | exact H1 | exact H2].
      * apply Nat.ltb_ge in L1.
        destruct (hi <=? s) eqn:L2.
        -- apply Nat.leb_le in L2. simpl. split.
           ++ intros j. rewrite Hnd.
              destruct (j <? s) eqn:J1.
              ** apply Nat.ltb_lt in J1.
                 assert (J2 : (j <? List.length a) = true) by (apply Nat.ltb_lt; lia).
                 rewrite J2. reflexivity.
              ** apply Nat.ltb_ge in J1. rewrite run_out by lia.
                 destruct (j <? List.length a); reflexivity.
           ++ destruct best as [[bi bj] bs].
              destruct Hb as (E & B1 & B2 & Rows & Cols).
              repeat split; auto.
              intros j Hj. destruct (Nat.lt_ge_cases j s) as [Lt|Ge].
              ** apply Cols. exact Lt.
              ** rewrite run_out by lia. lia.
        -- apply Nat.leb_gt in L2.
           assert (C : cell i s = true).
           { apply cell_intro; try lia. apply String.eqb_eq. exact Es. exact Hnp. }
           rewrite (k_eq i s d Hd C).
           destruct best as [[bi bj] bs].
           apply IH; [lia| |].
           ++ intros j. cbn [j2len_get].
              destruct (Nat.eqb_spec s j) as [->|Ne].
              ** replace (j <? S j) with true by (symmetry; apply Nat.ltb_lt; lia).
                 reflexivity.
              ** rewrite Hnd.
                 destruct (j <? s) eqn:J1; destruct (j <? S s) eqn:J2; try reflexivity;
                   apply Nat.ltb_lt in J1 || apply Nat.ltb_ge in J1;
                   apply Nat.ltb_lt in J2 || apply Nat.ltb_ge in J2; lia.
           ++ apply best_step; assumption.
    + assert (R0 : run i s = 0).
      { apply run_not_cell. destruct (cell i s) eqn:C; [|reflexivity].
        apply cell_true in C. destruct C as (_ & _ & _ & _ & C5 & _).
        rewrite C5, String.eqb_refl in Es. discriminate. }
      destruct (Skip R0) as [H1 H2].
      apply IH; [lia | exact H1 | exact H2].
Qed.

Lemma rows_spec :
  forall len i d best,
    i + len = hi -> lo <= i -> prev_ok i d -> best_ok i 0 best ->
    let '(bi, bj, bs) := flm_rows a a lo hi (seq i len) d best in
    bi = bj /\ lo <= bi /\ bi + bs <= hi.
Proof.
  induction len as [|len IH]; intros i d best Hlen Hi Hd Hb.
  - destruct best as [[bi bj] bs]. simpl.
    destruct Hb as (E & B1 & B2 & _ & _). auto.
  - simpl seq. cbn [flm_rows].
    unfold b2j_get.
    destruct (popular a (elt a i)) eqn:P.
    + cbn [flm_cols]. apply IH; [lia|lia| |].
      * intros j. simpl.
        replace (lo <=? i) with true by (symmetry; apply Nat.leb_le; lia).
        symmetry. apply run_not_cell. unfold cell. rewrite P.
        rewrite !andb_false_r. reflexivity.
      * destruct best as [[bi bj] bs].
        destruct Hb as (E & B1 & B2 & Rows & _).
        repeat split; auto.
        -- intros i' j Hi'. destruct (Nat.eq_dec i' i) as [->|Ne].
           ++ rewrite run_not_cell; [lia|]. unfold cell. rewrite P.
              rewrite !andb_false_r. reflexivity.
           ++ apply Rows. lia.
        -- intros j Hj. lia.
    + destruct (cols_spec i d Hi ltac:(lia) P Hd (List.length a) 0 [] best
                  eq_refl ltac:(intros j; reflexivity) ltac:(destruct best as [[bi bj] bs];
                    destruct Hb as (E & B1 & B2 & Rows & _); repeat split; auto; intros; lia))
        as [Hnd Hb'].
      destruct (flm_cols i lo hi _ d [] best) as [nd best'] eqn:Ec.
      simpl in Hnd, Hb'.
      apply IH; [lia|lia| |].
      * intros j. rewrite Hnd.
        replace (lo <=? i) with true by (symmetry; apply Nat.leb_le; lia).
        destruct (j <? List.length a) eqn:J; [reflexivity|].
        apply Nat.ltb_ge in J. symmetry. apply run_out. lia.
      * destruct best' as [[bi bj] bs].
        destruct Hb' as (E & B1 & B2 & Rows & Cols).
        repeat split; auto.
        -- intros i' j Hi'. destruct (Nat.eq_dec i' i) as [->|Ne].
           ++ destruct (Nat.lt_ge_cases j (List.length a)) as [Lt|Ge].
              ** apply Cols. exact Lt.
              ** rewrite run_out by lia. lia.
           ++ apply Rows. lia.
        -- intros j Hj. lia.
Qed.

Lemma extend_left_diag :
  forall f i k, f = i - lo -> lo <= i ->
  extend_left a a lo lo f (i, i, k) = (lo, lo, k + (i - lo)).
Proof.
  induction f as [|f IH]; intros i k Hf Hi.
  - simpl. replace i with lo by lia. rewrite Nat.sub_diag, Nat.add_0_r. reflexivity.
  - cbn [extend_left].
    replace (lo <? i) with true by (symmetry; apply Nat.ltb_lt; lia).
    rewrite String.eqb_refl. simpl.
    rewrite IH by lia. f_equal. lia.
Qed.

Lemma extend_right_diag :
  forall f i k, f = hi - (i + k) -> i + k <= hi ->
  extend_right a a hi hi f (i, i, k) = (i, i, hi - i).
Proof.
  induction f as [|f IH]; intros i k Hf Hk.
  - simpl. f_equal. lia.
  - cbn [extend_right].
    replace (i + k <? hi) with true by (symmetry; apply Nat.ltb_lt; lia).
    rewrite String.eqb_refl. simpl.
    apply IH; lia.
Qed.

(** On identical windows the longest match is the whole window. *)
Lemma find_longest_match_self :
  find_longest_match a a lo hi lo hi = (lo, lo, hi - lo).
Proof.
  unfold find_longest_match.
  pose proof (rows_spec (hi - lo) lo [] (lo, lo, 0)) as R.
  destruct (flm_rows a a lo hi (seq lo (hi - lo)) [] (lo, lo, 0)) as [[bi bj] bs] eqn:E.
  destruct R as (Eb & B1 & B2).
  - lia.
  - lia.
  - intros j. destruct lo as [|lo']; [reflexivity|].
    replace (S lo' <=? lo') with false by (symmetry; apply Nat.leb_gt; lia).
    reflexivity.
  - repeat split; try lia.
    intros i' j Hi'. rewrite run_not_cell; [lia|].
    unfold cell. replace (lo <=? i') with false by (symmetry; apply Nat.leb_gt; lia).
    reflexivity.
  - subst bj.
    rewrite extend_left_diag by lia.
    rewrite extend_right_diag by lia.
    reflexivity.
Qed.

End Diagonal.

Lemma get_matching_blocks_self (x : list string) :
  get_matching_blocks x x =
    ((if List.length x =? 0 then [] else [(0, 0, List.length x)])
    ++ [(List.length x, List.length x, 0)])%list.
Proof.
  unfold get_matching_blocks.
  pose proof (find_longest_match_self x 0 (List.length x) ltac:(lia) ltac:(lia)) as F.
  destruct (List.length x) as [|n] eqn:L.
  - reflexivity.
  - cbn [blocks_rec]. rewrite F. simpl.
    rewrite Nat.ltb_irrefl. reflexivity.
Qed.

Lemma fix_last_single i1 i2 j1 j2 :
  fix_last 3 [(Equal, i1, i2, j1, j2)] = [(Equal, i1, Nat.min i2 (i1 + 3), j1, Nat.min j2 (j1 + 3))].
Proof. reflexivity. Qed.

Lemma group_single i1 i2 j1 j2 :
  i2 - i1 <= 6 -> group_aux 3 [(Equal, i1, i2, j1, j2)] [] = [].
Proof.
  intros H. cbn [group_aux tag_eqb andb].
  replace (3 + 3 <? i2 - i1) with false by (symmetry; apply Nat.ltb_ge; lia).
  reflexivity.
Qed.

(** [list(unified_diff(x, x, lineterm=''))] is empty. *)
Lemma unified_diff_self (x : list string) : unified_diff x x = [].
Proof.
  unfold unified_diff, get_grouped_opcodes, get_opcodes.
  rewrite get_matching_blocks_self.
  destruct (List.length x) as [|n].
  - reflexivity.
  - match goal with
    | |- context [opcodes_aux ?l 0 0] =>
        replace (opcodes_aux l 0 0) with [(Equal, 0, S n, 0, S n)]
          by (simpl; rewrite Nat.ltb_irrefl; reflexivity)
    end.
    cbn [fix_first]. rewrite fix_last_single.
    rewrite group_single by lia.
    reflexivity.
Qed.

End DiffSelf.

(* ------------------------------------------------------------------ *)
(** ** Facts about the comparison engine *)
(* ------------------------------------------------------------------ *)

Module EngineFacts.


Lemma elem_of_section_titles t sections :
  t ∈ section_titles sections <->
  exists s, In s sections /\ strip_truthy s = true /\ section_title s = t.
Proof.
  unfold section_titles.
  rewrite elem_of_list_to_set, list_elem_of_In, in_map_iff.
  split.
  - intros (s & <- & Hs). apply filter_In in Hs. exists s. tauto.
  - intros (s & Hin & Ht & <-). exists s. split; [reflexivity|].
    apply filter_In. auto.
Qed.

Lemma next_with_title_found t sections :
  t ∈ section_titles sections ->
  exists s, next_with_title t sections = Ok s /\ In s sections /\ section_title s = t.
Proof.
  rewrite elem_of_section_titles. intros (s & Hin & _ & Ht).
  induction sections as [|s0 r IH]; [destruct Hin|].
  simpl. destruct (String.eqb (section_title s0) t) eqn:E.
  - apply String.eqb_eq in E. exists s0. simpl. auto.
  - destruct Hin as [<-|Hin].
    + rewrite Ht, String.eqb_refl in E. discriminate.
    + destruct (IH Hin) as (s' & E' & Hin' & Ht'). exists s'. simpl. auto.
Qed.

Lemma section_step_ok llm old_sections new_sections t :
  t ∈ section_titles old_sections -> t ∈ section_titles new_sections ->
  section_step llm old_sections new_sections t = Ok (common_entry llm old_sections new_sections t).
Proof.
  intros Ho Hn.
  destruct (next_with_title_found t old_sections Ho) as (so & Eo & _).
  destruct (next_with_title_found t new_sections Hn) as (sn & En & _).
  unfold section_step, common_entry, section_body. rewrite Eo, En.
  cbn. destruct (Difflib.unified_diff (body_lines so) (body_lines sn)); reflexivity.
Qed.

Lemma section_loop_ok llm old_sections new_sections ts :
  (forall t, In t ts -> t ∈ section_titles old_sections /\ t ∈ section_titles new_sections) ->
  section_loop llm old_sections new_sections ts
  = Ok (flat_map (common_entry llm old_sections new_sections) ts).
Proof.
  induction ts as [|t ts IH]; intros H; [reflexivity|].
  cbn [section_loop flat_map].
  destruct (H t (or_introl eq_refl)) as [Ho Hn].
  rewrite section_step_ok by assumption.
  cbn. rewrite IH by (intros u Hu; apply H; right; exact Hu).
  reflexivity.
Qed.

(** [_calculate_comparison_stats] never raises, and its result in closed form. *)
Lemma calculate_ok llm old_content new_content :
  let O := section_titles (split_sections old_content) in
  let N := section_titles (split_sections new_content) in
  _calculate_comparison_stats llm old_content new_content =
  Ok {| old_line_count := Z.of_nat (List.length (splitlines old_content));
        new_line_count := Z.of_nat (List.length (splitlines new_content));
        line_difference := (Z.of_nat (List.length (splitlines new_content))
                            - Z.of_nat (List.length (splitlines old_content)))%Z;
        changed_sections := Z.of_nat (size (O ∩ N));
        added_sections := Z.of_nat (size (N ∖ O));
        removed_sections := Z.of_nat (size (O ∖ N));
        section_changes := flat_map (common_entry llm (split_sections old_content) (split_sections new_content))
                             (elements (O ∩ N)) |}.
Proof.
  intros O N. unfold _calculate_comparison_stats.
  rewrite section_loop_ok.
  - reflexivity.
  - intros t Ht. apply list_elem_of_In in Ht. apply elem_of_elements in Ht.
    apply elem_of_intersection in Ht. exact Ht.
Qed.

Lemma common_entry_titles llm old_sections new_sections ts :
  map ch_section (flat_map (common_entry llm old_sections new_sections) ts)
  = List.filter (has_diff old_sections new_sections) ts.
Proof.
  induction ts as [|t ts IH]; [reflexivity|].
  cbn [flat_map List.filter]. unfold common_entry at 1, has_diff at 1.
  destruct (Difflib.unified_diff _ _); simpl; rewrite ?IH; reflexivity.
Qed.

Lemma common_entry_summary llm old_sections new_sections ts c :
  In c (flat_map (common_entry llm old_sections new_sections) ts) ->
  ch_change_summary c =
    _analyze_section_changes llm (join str_nl (section_body old_sections (ch_section c)))
                                 (join str_nl (section_body new_sections (ch_section c))).
Proof.
  intros Hc. apply in_flat_map in Hc. destruct Hc as (t & _ & Hc).
  unfold common_entry in Hc.
  destruct (Difflib.unified_diff _ _); [destruct Hc|].
  destruct Hc as [<-|[]]. reflexivity.
Qed.

Lemma has_diff_spec old_sections new_sections t :
  has_diff old_sections new_sections t = true <->
  Difflib.unified_diff (section_body old_sections t) (section_body new_sections t) <> [].
Proof.
  unfold has_diff. destruct (Difflib.unified_diff _ _); split; congruence.
Qed.

Lemma title_partition (O N : gset string) :
  (forall t, t ∈ O ∪ N <-> t ∈ N ∖ O \/ t ∈ O ∖ N \/ t ∈ O ∩ N) /\
  (forall t, ~ (t ∈ N ∖ O /\ t ∈ O ∖ N) /\ ~ (t ∈ N ∖ O /\ t ∈ O ∩ N)
             /\ ~ (t ∈ O ∖ N /\ t ∈ O ∩ N)).
Proof.
  split; intros t; rewrite ?elem_of_union, !elem_of_difference, !elem_of_intersection;
    destruct (decide (t ∈ O)), (decide (t ∈ N)); tauto.
Qed.

End EngineFacts.

(* ------------------------------------------------------------------ *)
(** ** Facts about the section splitter *)
(* ------------------------------------------------------------------ *)

Module SplitFacts.

Lemma re_split_heading_no_heading s :
  contains "## " s = false -> re_split_heading s = [s].
Proof.
  induction s as [|c r IH]; intros H; [reflexivity|].
  cbn [contains] in H. apply orb_false_iff in H as [H1 H2].
  cbn [re_split_heading]. rewrite (IH H2), H1. reflexivity.
Qed.

(** [''.join(re.split(...))] gives the text back. *)
Lemma re_split_heading_concat s :
  fold_right String.append EmptyString (re_split_heading s) = s.
Proof.
  induction s as [|c r IH]; [reflexivity|].
  cbn [re_split_heading].
  destruct (re_split_heading r) as [|p t] eqn:E.
  - cbn in IH. subst r. destruct (starts_with "## " (String c EmptyString)); reflexivity.
  - cbn in IH. rewrite <- IH. destruct (starts_with "## " (String c (p +s+ foldr String.append EmptyString t))); reflexivity.
Qed.

Lemma starts_heading c r :
  starts_with "## " (String c r) = true ->
  c = "#"%char /\ exists r2, r = String "#" (String " " r2).
Proof.
  intros H.
  destruct r as [|c1 [|c2 r2]]; cbn [starts_with] in H;
    rewrite ?andb_false_r in H; try discriminate.
  apply andb_true_iff in H as [E0 H]. apply andb_true_iff in H as [E1 H].
  apply andb_true_iff in H as [E2 _].
  apply Ascii.eqb_eq in E0, E1, E2. subst.
  split; [reflexivity|]. exists r2. reflexivity.
Qed.

(** Every piece after the first begins with the heading marker. *)
Lemma re_split_heading_tail s :
  Forall (fun p => starts_with "## " p = true) (List.tl (re_split_heading s)).
Proof.
  induction s as [|c r IH]; [constructor|].
  cbn [re_split_heading].
  destruct (starts_with "## " (String c r)) eqn:Hs.
  - (* a cut before position 0: the next piece is this heading *)
    destruct (starts_heading c r Hs) as [-> [r2 ->]].
    simpl in IH |- *.
    destruct (re_split_heading r2) as [|p2 t2]; simpl in IH |- *;
      constructor; first [reflexivity | exact IH].
  - destruct (re_split_heading r) as [|p t]; cbn; [constructor|exact IH].
Qed.

End SplitFacts.

(* ------------------------------------------------------------------ *)
(** ** Sanity checks against Python's output *)
(* ------------------------------------------------------------------ *)

Example d1 : Difflib.unified_diff ["x";"y"] ["x";"z"] = ["--- ";"+++ ";"@@ -1,2 +1,2 @@";" x";"-y";"+z"].
Proof. vm_compute. reflexivity. Qed.

Example d2 : Difflib.unified_diff ["a";"b";"c";"d";"e";"f";"g";"h";"i";"j"] ["a";"b";"c";"d";"e";"f";"g";"h";"i";"j";"k"]
  = ["--- ";"+++ ";"@@ -8,3 +8,4 @@";" h";" i";" j";"+k"].
Proof. vm_compute. reflexivity. Qed.

Example d3 : Difflib.unified_diff [] ["a"] = ["--- ";"+++ ";"@@ -0,0 +1 @@";"+a"].
Proof. vm_compute. reflexivity. Qed.

Example e1 : match _calculate_comparison_stats failing_llm doc_intro doc_intro with
  | Ok st => (changed_sections st, added_sections st, removed_sections st, List.length (section_changes st))
  | Raise _ => (0%Z,0%Z,0%Z,7%nat) end = (1%Z, 0%Z, 0%Z, 0%nat).
Proof. vm_compute. reflexivity. Qed.

Example e2 : match _calculate_comparison_stats failing_llm ("## A" +s+ str_nl +s+ "x" +s+ str_nl +s+ "y")
  ("## A" +s+ str_nl +s+ "x" +s+ str_nl +s+ "z") with
  | Ok st => map (fun c => (ch_section c, ch_diff_line_count c, ch_change_summary c)) (section_changes st)
  | Raise _ => [] end = [("A", 6%Z, "Error analyzing changes: timeout")].
Proof. vm_compute. reflexivity. Qed.

(* ------------------------------------------------------------------ *)
(** ** The specification's claims *)
(* ------------------------------------------------------------------ *)

Module Claims.

Import EngineFacts SplitFacts.

(** C10: the comparison engine always returns a report, its two line counts
    are the [splitlines] counts of the whole old and new texts, and
    [line_difference] is the new count minus the old count. *)
Theorem C10_line_difference (llm : string -> string -> outcome string)
    (old_content new_content : string) :
  exists st, _calculate_comparison_stats llm old_content new_content = Ok st /\
    old_line_count st = Z.of_nat (List.length (splitlines old_content)) /\
    new_line_count st = Z.of_nat (List.length (splitlines new_content)) /\
    line_difference st = (new_line_count st - old_line_count st)%Z.
Proof.
  rewrite calculate_ok. eexists. split; [reflexivity|]. cbn. lia.
Qed.

(** C7: whatever the annotator does, the comparison engine returns a report
    (no exception leaves it); an entry whose annotator call raised [e]
    carries the marker "Error analyzing changes: " followed by [str(e)]; the
    counts cover all titles and the entries are exactly the common titles
    whose bodies differ. *)
Theorem C7_annotator_failure_isolated (llm : string -> string -> outcome string)
    (old_content new_content : string) :
  let old_sections := split_sections old_content in
  let new_sections := split_sections new_content in
  let O := section_titles old_sections in
  let N := section_titles new_sections in
  exists st, _calculate_comparison_stats llm old_content new_content = Ok st /\
    (forall c e, In c (section_changes st) ->
       llm (join str_nl (section_body old_sections (ch_section c)))
           (join str_nl (section_body new_sections (ch_section c))) = Raise e ->
       ch_change_summary c = "Error analyzing changes: " +s+ exn_str e) /\
    added_sections st = Z.of_nat (size (N ∖ O)) /\
    removed_sections st = Z.of_nat (size (O ∖ N)) /\
    changed_sections st = Z.of_nat (size (O ∩ N)) /\
    (forall t, In t (map ch_section (section_changes st)) <->
       t ∈ O ∩ N /\ Difflib.unified_diff (section_body old_sections t) (section_body new_sections t) <> []).
Proof.
  cbv zeta.
  rewrite calculate_ok. eexists. split; [reflexivity|]. cbn [section_changes].
  split; [|split; [reflexivity|split; [reflexivity|split; [reflexivity|]]]].
  - intros c e Hc He. rewrite (common_entry_summary _ _ _ _ _ Hc).
    unfold _analyze_section_changes. rewrite He. reflexivity.
  - intros t. rewrite common_entry_titles, filter_In, has_diff_spec, <- list_elem_of_In,
      elem_of_elements. reflexivity.
Qed.

(** C1 (amended): the added, removed and common title sets partition the
    union of the two title sets, and the counts are their sizes; the
    reported entries have distinct titles and are exactly the common
    titles whose bodies have a non-empty unified diff (a common title with
    identical bodies is in none of the three reported groups). *)
Theorem C1_partition_amended (llm : string -> string -> outcome string)
    (old_content new_content : string) :
  let old_sections := split_sections old_content in
  let new_sections := split_sections new_content in
  let O := section_titles old_sections in
  let N := section_titles new_sections in
  exists st, _calculate_comparison_stats llm old_content new_content = Ok st /\
    added_sections st = Z.of_nat (size (N ∖ O)) /\
    removed_sections st = Z.of_nat (size (O ∖ N)) /\
    changed_sections st = Z.of_nat (size (O ∩ N)) /\
    (forall t, t ∈ O ∪ N <-> t ∈ N ∖ O \/ t ∈ O ∖ N \/ t ∈ O ∩ N) /\
    (forall t, ~ (t ∈ N ∖ O /\ t ∈ O ∖ N) /\ ~ (t ∈ N ∖ O /\ t ∈ O ∩ N)
               /\ ~ (t ∈ O ∖ N /\ t ∈ O ∩ N)) /\
    NoDup (map ch_section (section_changes st)) /\
    (forall t, In t (map ch_section (section_changes st)) <->
       t ∈ O ∩ N /\ Difflib.unified_diff (section_body old_sections t) (section_body new_sections t) <> []).
Proof.
  cbv zeta.
  rewrite calculate_ok. eexists. split; [reflexivity|]. cbn [section_changes added_sections
    removed_sections changed_sections].
  split; [reflexivity|split; [reflexivity|split; [reflexivity|]]].
  destruct (title_partition (section_titles (split_sections old_content))
    (section_titles (split_sections new_content))) as [P1 P2].
  split; [exact P1|]. split; [exact P2|].
  rewrite common_entry_titles. split.
  - apply NoDup_ListNoDup, List.NoDup_filter, NoDup_ListNoDup, NoDup_elements.
  - intros t. rewrite filter_In, has_diff_spec, <- list_elem_of_In, elem_of_elements.
    reflexivity.
Qed.

(** C1: on two copies of the one-section document "## Intro" / "Hello" the
    title "Intro" is in the union of the title sets but in none of the added
    titles, the removed titles and the titles of the reported entries. *)
Lemma C1_counterexample :
  exists st, _calculate_comparison_stats failing_llm doc_intro doc_intro = Ok st /\
    "Intro" ∈ section_titles (split_sections doc_intro) ∪ section_titles (split_sections doc_intro) /\
    ("Intro" ∉ section_titles (split_sections doc_intro) ∖ section_titles (split_sections doc_intro)) /\
    ~ In "Intro" (map ch_section (section_changes st)).
Proof.
  eexists. split; [vm_compute; reflexivity|].
  assert (H : "Intro" ∈ section_titles (split_sections doc_intro)).
  { apply elem_of_section_titles. exists doc_intro.
    split; [vm_compute; right; left; reflexivity|]. split; vm_compute; reflexivity. }
  split; [set_solver|]. split; [set_solver|].
  vm_compute. intros [].
Qed.

(** C2 (amended): a common title whose old and new bodies are equal has no
    entry in [section_changes]; it is still counted in [changed_sections],
    which is the size of the common title set.  Comparing "## Intro" /
    "Hello" with itself gives no entries, no added and no removed sections,
    and one changed section. *)
Theorem C2_identical_sections_excluded (llm : string -> string -> outcome string)
    (old_content new_content : string) :
  let old_sections := split_sections old_content in
  let new_sections := split_sections new_content in
  (exists st, _calculate_comparison_stats llm old_content new_content = Ok st /\
    changed_sections st = Z.of_nat (size (section_titles old_sections ∩ section_titles new_sections)) /\
    forall t, section_body old_sections t = section_body new_sections t ->
      ~ In t (map ch_section (section_changes st))) /\
  (exists st, _calculate_comparison_stats llm doc_intro doc_intro = Ok st /\
    section_changes st = [] /\ added_sections st = 0%Z /\ removed_sections st = 0%Z /\
    changed_sections st = 1%Z).
Proof.
  cbv zeta. split.
  - rewrite calculate_ok. eexists. split; [reflexivity|]. split; [reflexivity|].
    intros t Heq Hin. cbn [section_changes] in Hin.
    rewrite common_entry_titles, filter_In, has_diff_spec in Hin.
    destruct Hin as [_ Hd]. apply Hd. rewrite Heq. apply DiffSelf.unified_diff_self.
  - eexists. split; [vm_compute; reflexivity|]. vm_compute. repeat split.
Qed.

(** C2: comparing "## Intro" / "Hello" with itself reports one changed
    section, not zero. *)
Lemma C2_counterexample :
  exists st, _calculate_comparison_stats failing_llm doc_intro doc_intro = Ok st /\
    changed_sections st = 1%Z /\ changed_sections st <> 0%Z.
Proof.
  eexists. split; [vm_compute; reflexivity|]. vm_compute. split; [reflexivity|discriminate].
Qed.



(** C4: called on a generated summary with two earlier exports of the page
    (both holding "## Summary"), the compare stage stores the statistics and
    then raises [NameError] on the name [unified_diff], which summarizer.py
    never imports: [diff_result] stays unset although the two summaries
    differ, and the stage's handler appends the error message. *)
Theorem C4_compare_stage_name_error :
  let w := {| st := state_generated; files := fs_two |} in
  fst (_compare_summaries E0 w) = Raise (NameError "unified_diff") /\
  comparison_stats (st (snd (_compare_summaries E0 w))) <> None /\
  diff_result (st (snd (_compare_summaries E0 w))) = None /\
  Difflib.unified_diff (splitlines ("Old line" +s+ str_nl +s+ "Second line")) (splitlines "New line") <> [] /\
  messages (st (try_stage "Error comparing summaries: " (_compare_summaries E0) w)) =
    [HumanMessage P0; AIMessage "Error comparing summaries: name 'unified_diff' is not defined"].
Proof.
  intros w. repeat split; vm_compute; try reflexivity; discriminate.
Qed.

(** C5: called with export enabled on a generated summary, the export stage
    raises [NameError] on the name [os] (used for [os.getlogin()], never
    imported) before it writes anything: no file is written, [export_path]
    stays unset, and the handler appends the error message. *)
Theorem C5_export_stage_name_error :
  let w := {| st := state_generated; files := ∅ |} in
  p_export P0 = true /\ summary state_generated = Some "New line" /\
  fst (_export_summary E0 w) = Raise (NameError "os") /\
  files (try_stage "Error exporting summary: " (_export_summary E0) w) = ∅ /\
  export_path (st (try_stage "Error exporting summary: " (_export_summary E0) w)) = None /\
  messages (st (try_stage "Error exporting summary: " (_export_summary E0) w)) =
    [HumanMessage P0; AIMessage "Error exporting summary: name 'os' is not defined"].
Proof.
  intros w. repeat split; vm_compute; reflexivity.
Qed.

(** C6: with exactly one earlier export of the page the compare stage does
    nothing (it requires more than one file); with two it compares against
    the second in reverse name order, the older one, and not the most
    recent. *)
Theorem C6_prior_export_selection :
  _compare_summaries E0 {| st := state_generated; files := fs_one |}
    = (Ok tt, {| st := state_generated; files := fs_one |}) /\
  sort_desc (glob fs_two "summaries" (file_prefix meta0)) = [newer_file; older_file] /\
  (exists stats,
     comparison_stats (st (snd (_compare_summaries E0 {| st := state_generated; files := fs_two |})))
       = Some stats /\
     _calculate_comparison_stats failing_llm
       (summary_section (prior_export "2024-01-01" ("Old line" +s+ str_nl +s+ "Second line")))
       "New line" = Ok stats /\
     _calculate_comparison_stats failing_llm
       (summary_section (prior_export "2024-01-02" "Newer line")) "New line" <> Ok stats).
Proof.
  split; [vm_compute; reflexivity|]. split; [vm_compute; reflexivity|].
  eexists. split; [vm_compute; reflexivity|]. split; [vm_compute; reflexivity|].
  vm_compute. discriminate.
Qed.



(** C9 (amended): a non-blank text with no "## " is one section, the text
    itself; its title is its first line stripped of '#' and ' ' at both
    ends (not the empty string) and its body is the remaining lines.  In
    general the pieces concatenate back to the text and every piece after
    the first begins with "## "; titles strip only '#' and ' ', so a tab
    after the marker stays in the title and trailing '#' are removed. *)
Theorem C9_sections_amended (d : string) :
  contains "## " d = false -> strip_truthy d = true ->
  split_sections d = [d] /\
  section_titles (split_sections d) = {[ strip_hash_space (List.hd "" (split_nl d)) ]} /\
  section_body (split_sections d) (section_title d) = List.tl (split_nl d) /\
  (forall d', fold_right String.append EmptyString (split_sections d') = d' /\
              Forall (fun p => starts_with "## " p = true) (List.tl (split_sections d'))) /\
  section_title doc_tab_heading = String chr_tab EmptyString +s+ "Intro".
Proof.
  intros Hno Hne.
  assert (Hs : split_sections d = [d]) by exact (re_split_heading_no_heading d Hno).
  split; [exact Hs|]. rewrite Hs.
  split; [|split; [|split]].
  - unfold section_titles. cbn [List.filter]. rewrite Hne. cbn. set_solver.
  - unfold section_body. cbn [next_with_title]. rewrite String.eqb_refl. reflexivity.
  - intros d'. split; [apply re_split_heading_concat|apply re_split_heading_tail].
  - vm_compute. reflexivity.
Qed.

(** C9: a witness: the two-line text "Hello" / "World". *)
Lemma C9_witness :
  contains "## " doc_plain = false /\ strip_truthy doc_plain = true /\
  split_sections doc_plain = [doc_plain] /\
  section_titles (split_sections doc_plain) = {[ "Hello" ]}.
Proof.
  split; [reflexivity|]. split; [reflexivity|].
  destruct (C9_sections_amended doc_plain eq_refl eq_refl) as (H1 & H2 & _).
  split; [exact H1|]. exact H2.
Defined.

(** C9: the heading-free text "Hello" / "World" is one section whose title
    is "Hello", not the empty string. *)
Lemma C9_counterexample :
  contains "## " doc_plain = false /\ split_sections doc_plain = [doc_plain] /\
  section_title doc_plain = "Hello" /\ section_title doc_plain <> "".
Proof.
  split; [reflexivity|]. split; [reflexivity|]. split; [vm_compute; reflexivity|].
  vm_compute. discriminate.
Qed.

End Claims.

(* ------------------------------------------------------------------ *)
(** ** Further properties of the comparison engine and the workflow *)
(* ------------------------------------------------------------------ *)

Module FrameFacts.

Lemma nil_of_len0 {A} (l : list A) : List.length l <= 0 -> l = [].
Proof. destruct l; [reflexivity|cbn; lia]. Qed.

Lemma appends_mono n k {A} (m : M A) : n <= k -> appends_le n m -> appends_le k m.
Proof.
  intros Hk H w. specialize (H w). destruct (m w) as [[x|e] w']; [|exact H].
  destruct H as (l & E & L). exists l. split; [exact E|lia].
Qed.

Lemma appends_ret n {A} (x : A) : appends_le n (mret x).
Proof. intros w. exists []. split; [symmetry; apply app_nil_r|cbn; lia]. Qed.

Lemma appends_ret' n {A} (x : A) : appends_le n (ret x).
Proof. intros w. exists []. split; [symmetry; apply app_nil_r|cbn; lia]. Qed.

Lemma appends_raise n {A} e : appends_le n (raise (A:=A) e).
Proof. intros w. reflexivity. Qed.

Lemma appends_lift n {A} (o : outcome A) : appends_le n (lift o).
Proof.
  intros w. unfold lift. destruct o; [|reflexivity].
  exists []. split; [symmetry; apply app_nil_r|cbn; lia].
Qed.

Lemma appends_get_state n : appends_le n get_state.
Proof. intros w. exists []. split; [symmetry; apply app_nil_r|cbn; lia]. Qed.

Lemma appends_get_files n : appends_le n get_files.
Proof. intros w. exists []. split; [symmetry; apply app_nil_r|cbn; lia]. Qed.

Lemma appends_global n name : appends_le n (global name).
Proof.
  unfold global. destruct (existsb _ _); [apply appends_ret|apply appends_raise].
Qed.

Lemma appends_modify n f :
  (forall s, messages (f s) = messages s) -> appends_le n (modify_state f).
Proof.
  intros Hf w. exists []. cbn. rewrite Hf, app_nil_r. split; [reflexivity|lia].
Qed.

Lemma appends_write n path content : appends_le n (write_file path content).
Proof. intros w. exists []. split; [symmetry; apply app_nil_r|cbn; lia]. Qed.

Lemma appends_append text : appends_le 1 (append_ai text).
Proof. intros w. exists [AIMessage text]. split; reflexivity. Qed.

Lemma appends_bind n {A B} (m : M A) (f : A -> M B) :
  appends_le 0 m -> (forall x, appends_le n (f x)) -> appends_le n (m ≫= f).
Proof.
  intros Hm Hf w. unfold mbind, M_bind, bind. specialize (Hm w).
  destruct (m w) as [[x|e] w1]; [|exact Hm].
  destruct Hm as (l & E & L). apply nil_of_len0 in L. subst l. rewrite app_nil_r in E.
  specialize (Hf x w1). destruct (f x w1) as [[y|e'] w2].
  - destruct Hf as (l & E' & L'). exists l. rewrite E', E. auto.
  - rewrite Hf. exact E.
Qed.

Lemma appends_last_params : appends_le 0 last_params.
Proof.
  unfold last_params. apply appends_bind; [apply appends_get_state|intros s].
  destruct (List.rev (messages s)) as [|[p|c] r];
    first [apply appends_raise | apply appends_ret].
Qed.

Lemma keeps_ret {A} (x : A) : keeps_files (mret x).
Proof. intros w. reflexivity. Qed.
Lemma keeps_ret' {A} (x : A) : keeps_files (ret x).
Proof. intros w. reflexivity. Qed.
Lemma keeps_raise {A} e : keeps_files (raise (A:=A) e).
Proof. intros w. reflexivity. Qed.
Lemma keeps_lift {A} (o : outcome A) : keeps_files (lift o).
Proof. intros w. reflexivity. Qed.
Lemma keeps_get_state : keeps_files get_state.
Proof. intros w. reflexivity. Qed.
Lemma keeps_get_files : keeps_files get_files.
Proof. intros w. reflexivity. Qed.
Lemma keeps_global name : keeps_files (global name).
Proof. unfold global. destruct (existsb _ _); intros w; reflexivity. Qed.
Lemma keeps_modify f : keeps_files (modify_state f).
Proof. intros w. reflexivity. Qed.
Lemma keeps_append text : keeps_files (append_ai text).
Proof. intros w. reflexivity. Qed.

Lemma keeps_bind {A B} (m : M A) (f : A -> M B) :
  keeps_files m -> (forall x, keeps_files (f x)) -> keeps_files (m ≫= f).
Proof.
  intros Hm Hf w. unfold mbind, M_bind, bind. specialize (Hm w).
  destruct (m w) as [[x|e] w1]; cbn in Hm |- *; [|exact Hm].
  rewrite Hf. exact Hm.
Qed.

(** [os] is not bound in summarizer.py. *)
Lemma global_os : global "os" = raise (NameError "os").
Proof. reflexivity. Qed.

Lemma keeps_bind_raise {A B} e (f : A -> M B) : keeps_files (raise e ≫= f).
Proof. intros w. reflexivity. Qed.

Lemma keeps_last_params : keeps_files last_params.
Proof.
  unfold last_params. apply keeps_bind; [apply keeps_get_state|intros s].
  destruct (List.rev (messages s)) as [|[p|c] r];
    first [apply keeps_raise | apply keeps_ret].
Qed.

Ltac frame_solve :=
  repeat (cbv beta zeta;
    match goal with
    | |- appends_le _ (mbind _ last_params) =>
        apply appends_bind; [apply appends_last_params|intros ?]
    | |- appends_le _ (mbind _ _) => apply appends_bind; [|intros ?]
    | |- appends_le _ last_params => apply appends_last_params
    | |- appends_le _ (mret _) => apply appends_ret
    | |- appends_le _ (ret _) => apply appends_ret'
    | |- appends_le _ (raise _) => apply appends_raise
    | |- appends_le _ (lift _) => apply appends_lift
    | |- appends_le _ get_state => apply appends_get_state
    | |- appends_le _ get_files => apply appends_get_files
    | |- appends_le _ (global _) => apply appends_global
    | |- appends_le _ (modify_state _) => apply appends_modify; reflexivity
    | |- appends_le _ (write_file _ _) => apply appends_write
    | |- appends_le 1 (append_ai _) => apply appends_append
    | |- appends_le _ (match ?x with _ => _ end) => destruct x
    | |- appends_le _ (if ?b then _ else _) => destruct b
    | |- keeps_files (mbind _ (global "os")) => rewrite global_os; apply keeps_bind_raise
    | |- keeps_files (mbind _ last_params) =>
        apply keeps_bind; [apply keeps_last_params|intros ?]
    | |- keeps_files (mbind _ _) => apply keeps_bind; [|intros ?]
    | |- keeps_files last_params => apply keeps_last_params
    | |- keeps_files (mret _) => apply keeps_ret
    | |- keeps_files (ret _) => apply keeps_ret'
    | |- keeps_files (raise _) => apply keeps_raise
    | |- keeps_files (lift _) => apply keeps_lift
    | |- keeps_files get_state => apply keeps_get_state
    | |- keeps_files get_files => apply keeps_get_files
    | |- keeps_files (global _) => apply keeps_global
    | |- keeps_files (modify_state _) => apply keeps_modify
    | |- keeps_files (append_ai _) => apply keeps_append
    | |- keeps_files (match ?x with _ => _ end) => destruct x
    | |- keeps_files (if ?b then _ else _) => destruct b
    end).

Section Stages.
Variable E : env.

Lemma load_content_frame : appends_le 1 (_load_content E) /\ keeps_files (_load_content E).
Proof. unfold _load_content. split; frame_solve. Qed.

Lemma prepare_documents_frame : appends_le 1 _prepare_documents /\ keeps_files _prepare_documents.
Proof. unfold _prepare_documents. split; frame_solve. Qed.

Lemma generate_summary_frame : appends_le 1 (_generate_summary E) /\ keeps_files (_generate_summary E).
Proof. unfold _generate_summary. split; frame_solve. Qed.

Lemma compare_summaries_frame : appends_le 1 (_compare_summaries E) /\ keeps_files (_compare_summaries E).
Proof. unfold _compare_summaries. split; frame_solve. Qed.

Lemma export_summary_frame : appends_le 1 (_export_summary E) /\ keeps_files (_export_summary E).
Proof. unfold _export_summary. split; frame_solve. Qed.

End Stages.

Lemma try_stage_frame prefix (body : M unit) w :
  appends_le 1 body -> keeps_files body ->
  exists l, messages (st (try_stage prefix body w)) = (messages (st w) ++ l)%list /\
            List.length l <= 1 /\ files (try_stage prefix body w) = files w.
Proof.
  intros Ha Hk. specialize (Ha w). specialize (Hk w). unfold try_stage.
  destruct (body w) as [[x|e] w'] eqn:Hb; cbn in Hk.
  - destruct Ha as (l & E & L). exists l. auto.
  - exists [AIMessage (prefix +s+ exn_str e)]. cbn. rewrite Ha. auto.
Qed.

End FrameFacts.

(* ------------------------------------------------------------------ *)
(** ** Further properties of the workflow and of the comparison engine *)
(* ------------------------------------------------------------------ *)

Module Extras.

Import EngineFacts FrameFacts.

Lemma size_inter_diff (O N : gset string) : size (O ∩ N) + size (N ∖ O) = size N.
Proof.
  rewrite <- size_union by set_solver. f_equal. apply set_eq. intros x. set_unfold.
  destruct (decide (x ∈ O)); naive_solver.
Qed.

(** Every node of the graph, run on any world, keeps the earlier messages
    as a prefix of the history, appends at most one message (its success
    message or its error message), and leaves the export directory as it
    was. *)
Theorem stage_messages_and_files (E : env) (name : string) (step : world -> world) (w : world) :
  node E name = Some step ->
  exists l, messages (st (step w)) = (messages (st w) ++ l)%list /\
            List.length l <= 1 /\ files (step w) = files w.
Proof.
  intros H. unfold node in H.
  destruct (String.eqb name "load_content");
    [injection H as <-; destruct (load_content_frame E) as [Ha Hk];
     exact (try_stage_frame _ _ w Ha Hk)|].
  destruct (String.eqb name "prepare_documents");
    [injection H as <-; destruct prepare_documents_frame as [Ha Hk];
     exact (try_stage_frame _ _ w Ha Hk)|].
  destruct (String.eqb name "generate_summary");
    [injection H as <-; destruct (generate_summary_frame E) as [Ha Hk];
     exact (try_stage_frame _ _ w Ha Hk)|].
  destruct (String.eqb name "compare_summaries");
    [injection H as <-; destruct (compare_summaries_frame E) as [Ha Hk];
     exact (try_stage_frame _ _ w Ha Hk)|].
  destruct (String.eqb name "export_summary");
    [injection H as <-; destruct (export_summary_frame E) as [Ha Hk];
     exact (try_stage_frame _ _ w Ha Hk)|].
  discriminate.
Qed.

(** The comparison node on a generated summary with two prior exports. *)
Lemma stage_messages_and_files_witness :
  node E0 "compare_summaries" = Some (try_stage "Error comparing summaries: " (_compare_summaries E0)) /\
  exists l, messages (st (try_stage "Error comparing summaries: " (_compare_summaries E0)
                          {| st := state_generated; files := fs_two |})) =
            (messages state_generated ++ l)%list /\ List.length l <= 1 /\
            files (try_stage "Error comparing summaries: " (_compare_summaries E0)
                     {| st := state_generated; files := fs_two |}) = fs_two.
Proof.
  split; [reflexivity|].
  apply (stage_messages_and_files E0 "compare_summaries"). reflexivity.
Defined.

(** Swapping the two texts swaps the line counts and the added and removed
    counts, negates the line difference and keeps the changed count; the
    engine returns a report in both directions. *)
Theorem calculate_swap (llm : string -> string -> outcome string) (a b : string) :
  match _calculate_comparison_stats llm a b, _calculate_comparison_stats llm b a with
  | Ok s, Ok t =>
      old_line_count t = new_line_count s /\ new_line_count t = old_line_count s /\
      line_difference t = (- line_difference s)%Z /\
      changed_sections t = changed_sections s /\
      added_sections t = removed_sections s /\ removed_sections t = added_sections s
  | _, _ => False
  end.
Proof.
  rewrite !calculate_ok. cbv zeta. cbn.
  rewrite (intersection_comm_L (section_titles (split_sections b))).
  repeat split; lia.
Qed.

(** The changed and added counts add up to the number of distinct titles
    of the new text, and the changed and removed counts to that of the old
    text. *)
Theorem calculate_counts (llm : string -> string -> outcome string) (a b : string) :
  match _calculate_comparison_stats llm a b with
  | Ok s =>
      (changed_sections s + added_sections s)%Z = Z.of_nat (size (section_titles (split_sections b))) /\
      (changed_sections s + removed_sections s)%Z = Z.of_nat (size (section_titles (split_sections a)))
  | Raise _ => False
  end.
Proof.
  rewrite calculate_ok. cbv zeta. cbn.
  pose proof (size_inter_diff (section_titles (split_sections a)) (section_titles (split_sections b))).
  pose proof (size_inter_diff (section_titles (split_sections b)) (section_titles (split_sections a))).
  rewrite (intersection_comm_L (section_titles (split_sections b))) in *.
  lia.
Qed.

(** Comparing a text with itself reports no section changes (the annotator
    is never called), no added and no removed sections, a zero line
    difference, and every distinct title as changed. *)
Theorem calculate_self (llm : string -> string -> outcome string) (a : string) :
  _calculate_comparison_stats llm a a =
    Ok {| old_line_count := Z.of_nat (List.length (splitlines a));
          new_line_count := Z.of_nat (List.length (splitlines a));
          line_difference := 0;
          changed_sections := Z.of_nat (size (section_titles (split_sections a)));
          added_sections := 0; removed_sections := 0; section_changes := [] |}.
Proof.
  rewrite calculate_ok. cbv zeta.
  set (O := section_titles (split_sections a)).
  assert (Hn : forall ts, flat_map (common_entry llm (split_sections a) (split_sections a)) ts = []).
  { induction ts as [|t ts IH]; [reflexivity|]. cbn [flat_map]. rewrite IH.
    unfold common_entry. rewrite DiffSelf.unified_diff_self. reflexivity. }
  rewrite Hn, intersection_idemp_L, difference_diag_L, size_empty. do 2 f_equal. lia.
Qed.

End Extras.

Module PersonaFacts.
Import Persona.

Lemma dict_get_set_same d k v : dict_get (dict_set d k v) k = Some v.
Proof.
  induction d as [|[k' v'] t IH]; cbn.
  - rewrite String.eqb_refl. reflexivity.
  - destruct (String.eqb k k') eqn:E; cbn.
    + rewrite E. reflexivity.
    + rewrite E. exact IH.
Qed.

Lemma dict_get_set_other d k v m : m <> k -> dict_get (dict_set d k v) m = dict_get d m.
Proof.
  intros Hne. induction d as [|[k' v'] t IH]; cbn.
  - apply String.eqb_neq in Hne. rewrite Hne. reflexivity.
  - destruct (String.eqb k k') eqn:E; cbn.
    + apply String.eqb_eq in E. subst k'. apply String.eqb_neq in Hne. rewrite Hne. reflexivity.
    + rewrite IH. reflexivity.
Qed.

Lemma dict_get_del_same d k : dict_get (dict_del d k) k = None.
Proof.
  induction d as [|[k' v'] t IH]; [reflexivity|]. unfold dict_del in *; cbn.
  destruct (String.eqb k k') eqn:E; cbn; [exact IH|]. rewrite E. exact IH.
Qed.

Lemma dict_get_del_other d k m : m <> k -> dict_get (dict_del d k) m = dict_get d m.
Proof.
  intros Hne. induction d as [|[k' v'] t IH]; [reflexivity|]. unfold dict_del in *; cbn.
  destruct (String.eqb k k') eqn:E; cbn.
  - apply String.eqb_eq in E. subst k'. apply String.eqb_neq in Hne. rewrite Hne. exact IH.
  - destruct (String.eqb m k'); [reflexivity|exact IH].
Qed.

Lemma dict_get_none_keys d k : dict_get d k = None -> ~ In k (map fst d).
Proof.
  induction d as [|[k' v'] t IH]; cbn; [tauto|].
  destruct (String.eqb k k') eqn:E; [discriminate|]. apply String.eqb_neq in E.
  intros H [H'|H']; [congruence|]. exact (IH H H').
Qed.

Lemma dict_set_fresh d k v : dict_get d k = None -> dict_set d k v = (d ++ [(k, v)])%list.
Proof.
  induction d as [|[k' v'] t IH]; cbn; [reflexivity|].
  destruct (String.eqb k k'); [discriminate|]. intros H. rewrite (IH H). reflexivity.
Qed.

Lemma dict_del_fresh d k : dict_get d k = None -> dict_del d k = d.
Proof.
  induction d as [|[k' v'] t IH]; [reflexivity|]. unfold dict_del in *; cbn.
  destruct (String.eqb k k'); [discriminate|]. intros H. cbn. rewrite (IH H). reflexivity.
Qed.

Lemma dict_set_keys_present d k v p : dict_get d k = Some p -> map fst (dict_set d k v) = map fst d.
Proof.
  induction d as [|[k' v'] t IH]; cbn; [discriminate|].
  destruct (String.eqb k k'); [reflexivity|]. intros H. cbn. rewrite (IH H). reflexivity.
Qed.

(** Adding a persona makes its prompt the one returned for its name, and
    leaves the prompt (or the [ValueError]) of every other name as it was. *)
Theorem add_then_get (personas : dict) (name prompt : string) :
  get_persona_prompt (add_persona personas name prompt) name = PRet prompt /\
  forall other, other <> name ->
    get_persona_prompt (add_persona personas name prompt) other = get_persona_prompt personas other.
Proof.
  unfold get_persona_prompt, add_persona. split.
  - rewrite dict_get_set_same. reflexivity.
  - intros other Hne. rewrite dict_get_set_other by exact Hne. reflexivity.
Qed.

(** [remove_persona] raises "Unknown persona: <name>" exactly when the name
    is unknown; otherwise the name becomes unknown and every other name
    keeps its prompt. *)
Theorem remove_persona_spec (personas : dict) (name : string) :
  match remove_persona personas name with
  | PValueError msg =>
      msg = "Unknown persona: " +s+ name /\ get_persona_prompt personas name = PValueError msg
  | PRet personas' =>
      (exists p, get_persona_prompt personas name = PRet p) /\
      get_persona_prompt personas' name = PValueError ("Unknown persona: " +s+ name) /\
      forall other, other <> name ->
        get_persona_prompt personas' other = get_persona_prompt personas other
  end.
Proof.
  unfold remove_persona, get_persona_prompt.
  destruct (dict_get personas name) as [p|] eqn:E.
  - split; [exists p; reflexivity|]. rewrite dict_get_del_same. split; [reflexivity|].
    intros other Hne. rewrite dict_get_del_other by exact Hne. reflexivity.
  - split; reflexivity.
Qed.

(** Adding a persona under a new name and removing it again gives back the
    same table, in the same order. *)
Theorem add_then_remove_fresh (personas : dict) (name prompt : string) (msg : string) :
  get_persona_prompt personas name = PValueError msg ->
  remove_persona (add_persona personas name prompt) name = PRet personas.
Proof.
  unfold get_persona_prompt, remove_persona, add_persona.
  destruct (dict_get personas name) eqn:E; [discriminate|]. intros _.
  rewrite dict_get_set_same, (dict_set_fresh _ _ _ E).
  f_equal. unfold dict_del. rewrite List.filter_app. fold (dict_del personas name).
  rewrite (dict_del_fresh _ _ E). cbn. rewrite String.eqb_refl. apply app_nil_r.
Qed.

Lemma add_then_remove_fresh_witness :
  get_persona_prompt default_personas "legal" = PValueError "Unknown persona: legal" /\
  remove_persona (add_persona default_personas "legal" "You review contracts.") "legal"
    = PRet default_personas.
Proof.
  split; [reflexivity|].
  apply (add_then_remove_fresh default_personas "legal" "You review contracts." "Unknown persona: legal").
  reflexivity.
Defined.

(** The listing order: re-adding a known name keeps the names in place, a
    new name is listed last. *)
Theorem add_persona_listing_order (personas : dict) (name prompt : string) :
  map fst (list_personas (add_persona personas name prompt)) =
    match get_persona_prompt personas name with
    | PRet _ => map fst (list_personas personas)
    | PValueError _ => (map fst (list_personas personas) ++ [name])%list
    end.
Proof.
  unfold list_personas, add_persona, get_persona_prompt.
  destruct (dict_get personas name) eqn:E.
  - exact (dict_set_keys_present _ _ _ _ E).
  - rewrite (dict_set_fresh _ _ _ E), map_app. reflexivity.
Qed.

(** A fresh [PersonaManager] knows exactly the personas "technical",
    "business", "project" and "user" (the CLI's and the agent's default
    "technical" among them); any other name raises "Unknown persona: ...".
    The [list-personas] command lists the four in that order, each with the
    first line of its prompt. *)
Theorem default_personas_known :
  (forall name, (exists p, get_persona_prompt default_personas name = PRet p) <->
     In name ["technical"; "business"; "project"; "user"]) /\
  cli_list_personas_rows =
    [("technical", "You are a technical expert focused on implementation details, code, and technical architecture.");
     ("business", "You are a business analyst focused on objectives, requirements, and business value.");
     ("project", "You are a project manager focused on timelines, deliverables, and project status.");
     ("user", "You are a user experience expert focused on usability and user needs.")].
Proof.
  split; [|vm_compute; reflexivity].
  intros name. unfold get_persona_prompt. cbn [default_personas dict_get].
  destruct (String.eqb name "technical") eqn:E1;
    [apply String.eqb_eq in E1; subst; split; [intros _; left; reflexivity|eauto]|].
  destruct (String.eqb name "business") eqn:E2;
    [apply String.eqb_eq in E2; subst; split; [intros _; right; left; reflexivity|eauto]|].
  destruct (String.eqb name "project") eqn:E3;
    [apply String.eqb_eq in E3; subst; split; [intros _; right; right; left; reflexivity|eauto]|].
  destruct (String.eqb name "user") eqn:E4;
    [apply String.eqb_eq in E4; subst; split; [intros _; right; right; right; left; reflexivity|eauto]|].
  apply String.eqb_neq in E1, E2, E3, E4. split; [intros [p Hp]; discriminate|].
  intros [H|[H|[H|[H|[]]]]]; congruence.
Qed.

End PersonaFacts.

Module StripFacts.
Import Config.

Lemma str_app_cons x r b : String x r +s+ b = String x (r +s+ b).
Proof. reflexivity. Qed.

Lemma str_app_assoc a b c : (a +s+ b) +s+ c = a +s+ (b +s+ c).
Proof. induction a as [|x r IH]; [reflexivity|]. rewrite !str_app_cons, IH. reflexivity. Qed.

Lemma str_app_nil_r a : a +s+ EmptyString = a.
Proof. induction a as [|x r IH]; [reflexivity|]. rewrite !str_app_cons, IH. reflexivity. Qed.

Lemma str_length_app a b : String.length (a +s+ b) = String.length a + String.length b.
Proof. induction a as [|x r IH]; [reflexivity|]. rewrite str_app_cons. cbn [String.length]. rewrite IH. reflexivity. Qed.

Lemma rev_str_acc s acc : rev_str s acc = rev_str s EmptyString +s+ acc.
Proof.
  revert acc. induction s as [|c r IH]; intros acc; [reflexivity|]. cbn.
  rewrite IH, (IH (String c EmptyString)), str_app_assoc. reflexivity.
Qed.

Lemma rev_str_app a b : rev_str (a +s+ b) EmptyString = rev_str b EmptyString +s+ rev_str a EmptyString.
Proof.
  revert b. induction a as [|c r IH]; intros b.
  - cbn [rev_str]. rewrite str_app_nil_r. reflexivity.
  - rewrite str_app_cons. cbn [rev_str].
    rewrite (rev_str_acc (r +s+ b)), IH, (rev_str_acc r (String c EmptyString)), str_app_assoc.
    reflexivity.
Qed.

Lemma rev_str_rev s : rev_str (rev_str s EmptyString) EmptyString = s.
Proof.
  induction s as [|c r IH]; [reflexivity|]. cbn [rev_str].
  rewrite (rev_str_acc r (String c EmptyString)), rev_str_app, IH. reflexivity.
Qed.

Lemma rev_str_length s : String.length (rev_str s EmptyString) = String.length s.
Proof.
  induction s as [|c r IH]; [reflexivity|]. cbn [rev_str].
  rewrite (rev_str_acc r (String c EmptyString)), str_length_app, IH. cbn. lia.
Qed.

Lemma lstrip_app p a b :
  lstrip_by p (a +s+ b) =
    match lstrip_by p a with EmptyString => lstrip_by p b | s => s +s+ b end.
Proof.
  induction a as [|c r IH]; [reflexivity|]. rewrite str_app_cons. cbn [lstrip_by].
  destruct (p c); [exact IH|reflexivity].
Qed.

Lemma lstrip_keep p a c b : p c = false ->
  lstrip_by p (a +s+ String c b) = lstrip_by p a +s+ String c b.
Proof.
  intros Hc. rewrite lstrip_app. destruct (lstrip_by p a); [|reflexivity]. cbn. rewrite Hc. reflexivity.
Qed.

Lemma rstrip_keep p a c b : p c = false ->
  rstrip_by p (a +s+ String c b) = a +s+ String c (rstrip_by p b).
Proof.
  intros Hc. unfold rstrip_by.
  change (String c b) with (String c EmptyString +s+ b).
  rewrite !rev_str_app. cbn [rev_str].
  rewrite str_app_assoc.
  change (String c EmptyString +s+ rev_str a EmptyString) with (String c (rev_str a EmptyString)).
  rewrite lstrip_keep by exact Hc.
  rewrite rev_str_app. cbn [rev_str].
  rewrite (rev_str_acc (rev_str a EmptyString)), rev_str_rev, str_app_assoc. reflexivity.
Qed.

Lemma lstrip_length p s :
  lstrip_by p s = s \/ String.length (lstrip_by p s) < String.length s.
Proof.
  induction s as [|c r IH]; [left; reflexivity|]. cbn. destruct (p c); [|left; reflexivity].
  right. destruct IH as [-> | H]; cbn; lia.
Qed.

Lemma lstrip_length_le p s : String.length (lstrip_by p s) <= String.length s.
Proof. destruct (lstrip_length p s) as [-> | H]; lia. Qed.

Lemma rstrip_length_le p s : String.length (rstrip_by p s) <= String.length s.
Proof.
  unfold rstrip_by. rewrite rev_str_length.
  pose proof (lstrip_length_le p (rev_str s EmptyString)). rewrite rev_str_length in H. exact H.
Qed.

Lemma strip_fixed s : strip s = s -> lstrip_by isspace s = s /\ rstrip_by isspace s = s.
Proof.
  unfold strip, strip_by. intros H.
  destruct (lstrip_length isspace s) as [E|L].
  - rewrite E in H. auto.
  - exfalso. pose proof (rstrip_length_le isspace (lstrip_by isspace s)). rewrite H in H0. lia.
Qed.

Lemma lstrip_suffix p s : exists a, s = a +s+ lstrip_by p s.
Proof.
  induction s as [|c r IH]; [exists EmptyString; reflexivity|]. cbn [lstrip_by]. destruct (p c).
  - destruct IH as [a Ha]. exists (String c a). rewrite str_app_cons, <- Ha. reflexivity.
  - exists EmptyString. reflexivity.
Qed.

Lemma rstrip_prefix p s : exists b, s = rstrip_by p s +s+ b.
Proof.
  destruct (lstrip_suffix p (rev_str s EmptyString)) as [a Ha]. exists (rev_str a EmptyString).
  unfold rstrip_by. rewrite <- rev_str_app, <- Ha, rev_str_rev. reflexivity.
Qed.

Lemma strip_nl s : strip (s +s+ str_nl) = strip s.
Proof.
  unfold strip, strip_by. rewrite lstrip_app.
  destruct (lstrip_by isspace s) as [|c r] eqn:E; [reflexivity|].
  unfold rstrip_by. rewrite rev_str_app. reflexivity.
Qed.

End StripFacts.

Module ConfigFacts.
Import Config StripFacts.

Lemma contains_char_app x a b :
  contains (String x EmptyString) (a +s+ b) =
    contains (String x EmptyString) a || contains (String x EmptyString) b.
Proof.
  induction a as [|c r IH]; [reflexivity|]. rewrite str_app_cons. cbn [contains].
  rewrite IH. cbn. destruct (Ascii.eqb x c); reflexivity.
Qed.

Lemma contains_char_cons x c r :
  contains (String x EmptyString) (String c r) = Ascii.eqb x c || contains (String x EmptyString) r.
Proof. cbn. rewrite andb_true_r. reflexivity. Qed.

Lemma translate_app a b : contains str_cr a = false ->
  translate_newlines (a +s+ b) = a +s+ translate_newlines b.
Proof.
  induction a as [|c r IH]; [reflexivity|]. unfold str_cr. rewrite contains_char_cons.
  intros H. apply orb_false_iff in H as [H1 H2]. rewrite str_app_cons. cbn [translate_newlines].
  assert (Hc : (nat_of_ascii c =? 13)%nat = false).
  { apply Nat.eqb_neq. intros E. apply Ascii.eqb_neq in H1. apply H1.
    rewrite <- E, Ascii.ascii_nat_embedding. reflexivity. }
  rewrite Hc, IH by exact H2. reflexivity.
Qed.

Lemma file_lines_app a b : contains str_nl a = false ->
  file_lines (a +s+ String chr_nl b) = (a +s+ str_nl) :: file_lines b.
Proof.
  induction a as [|c r IH]; [reflexivity|]. unfold str_nl. rewrite contains_char_cons.
  intros H. apply orb_false_iff in H as [H1 H2]. rewrite str_app_cons. cbn [file_lines].
  rewrite Ascii.eqb_sym, H1, IH by exact H2. reflexivity.
Qed.

Lemma file_lines_last a : a <> EmptyString -> contains str_nl a = false -> file_lines a = [a].
Proof.
  induction a as [|c r IH]; [congruence|]. unfold str_nl. rewrite contains_char_cons.
  intros _ H. apply orb_false_iff in H as [H1 H2]. cbn [file_lines].
  rewrite Ascii.eqb_sym, H1. destruct r as [|d r']; [reflexivity|].
  rewrite IH by (discriminate || exact H2). reflexivity.
Qed.

Lemma split_eq_none s : contains "=" s = false -> split_eq s = None.
Proof.
  induction s as [|c r IH]; [reflexivity|]. rewrite contains_char_cons.
  intros H. apply orb_false_iff in H as [H1 H2]. cbn [split_eq].
  rewrite Ascii.eqb_sym, H1, IH by exact H2. reflexivity.
Qed.

Lemma split_eq_app k v : contains "=" k = false -> split_eq (k +s+ String "=" v) = Some (k, v).
Proof.
  induction k as [|c r IH]; [reflexivity|]. rewrite contains_char_cons.
  intros H. apply orb_false_iff in H as [H1 H2]. rewrite str_app_cons. cbn [split_eq].
  rewrite Ascii.eqb_sym, H1, IH by exact H2. reflexivity.
Qed.

(** A line [KEY=VALUE] whose key and value have no surrounding whitespace
    is its own [strip()]. *)
Lemma assign_strip k v : strip k = k -> strip v = v -> strip (k +s+ "=" +s+ v) = k +s+ "=" +s+ v.
Proof.
  intros Hk Hv. apply strip_fixed in Hk as [Hk _]. apply strip_fixed in Hv as [_ Hv].
  change ("=" +s+ v) with (String "=" v).
  unfold strip, strip_by. rewrite lstrip_keep, Hk, rstrip_keep, Hv by reflexivity. reflexivity.
Qed.

Lemma assign_line_facts ea k v : plain_assignment ea (k, v) = true ->
  let line := k +s+ "=" +s+ v in
  contains str_nl line = false /\ contains str_cr line = false /\ line <> EmptyString /\
  forall env t, load_lines ea env (line :: t) = load_lines ea (<[k := v]> env) t /\
                load_lines ea env ((line +s+ str_nl) :: t) = load_lines ea (<[k := v]> env) t.
Proof.
  unfold plain_assignment. cbn [fst snd]. rewrite !andb_true_iff, !negb_true_iff, !String.eqb_eq.
  intros ((((((((Hk & Hv) & Heq) & Hh) & Hn1) & Hn2) & Hr1) & Hr2) & Ha). cbv zeta.
  unfold str_nl, str_cr in *. rewrite !contains_char_app, Hn1, Hn2, Hr1, Hr2.
  split; [reflexivity|]. split; [reflexivity|]. split; [destruct k; discriminate|].
  assert (Hl : forall env t, load_lines ea env ((k +s+ "=" +s+ v) :: t) = load_lines ea (<[k := v]> env) t).
  { intros env t. cbn [load_lines]. rewrite assign_strip by assumption.
    assert (Hne : String.eqb (k +s+ "=" +s+ v) "" = false) by (destruct k; reflexivity).
    assert (Hs : starts_with "#" (k +s+ "=" +s+ v) = false).
    { destruct k as [|c r]; [reflexivity|]. rewrite str_app_cons. cbn in Hh |- *.
      rewrite andb_true_r in Hh. rewrite Hh. reflexivity. }
    rewrite Hne, Hs. cbn [negb andb].
    change ("=" +s+ v) with (String "=" v). rewrite split_eq_app by exact Heq.
    rewrite Hk, Hv, Ha. reflexivity. }
  intros env t. split; [apply Hl|].
  rewrite <- (Hl env t). cbn [load_lines]. rewrite strip_nl. reflexivity.
Qed.

Lemma strip_no_char x s :
  contains (String x EmptyString) s = false -> contains (String x EmptyString) (strip s) = false.
Proof.
  intros H. unfold strip, strip_by.
  destruct (lstrip_suffix isspace s) as [a Ha].
  destruct (rstrip_prefix isspace (lstrip_by isspace s)) as [b Hb].
  rewrite Ha, contains_char_app in H. apply orb_false_iff in H as [_ H].
  rewrite Hb, contains_char_app in H. apply orb_false_iff in H as [H _]. exact H.
Qed.

Lemma skip_line_facts ea t : skipped_line t = true ->
  contains str_nl t = false /\ contains str_cr t = false /\
  forall env tl, load_lines ea env (t :: tl) = load_lines ea env tl /\
                 load_lines ea env ((t +s+ str_nl) :: tl) = load_lines ea env tl.
Proof.
  unfold skipped_line. rewrite !andb_true_iff, !negb_true_iff. intros ((Hs & Hn) & Hc).
  split; [exact Hn|]. split; [exact Hc|]. intros env tl.
  assert (H : forall line, strip line = strip t -> load_lines ea env (line :: tl) = load_lines ea env tl).
  { intros line Hl. cbn [load_lines]. rewrite Hl.
    destruct (String.eqb (strip t) "") eqn:E1; [reflexivity|].
    cbn [orb] in Hs. rewrite Hs. reflexivity. }
  split; apply H; [reflexivity|apply strip_nl].
Qed.

Lemma line_facts ea l : line_ok ea l = true ->
  contains str_nl (render_line l) = false /\ contains str_cr (render_line l) = false /\
  forall env t,
    load_lines ea env (render_line l :: t) =
      load_lines ea (fold_left (fun e kv => <[kv.1 := kv.2]> e) (assignments [l]) env) t /\
    load_lines ea env ((render_line l +s+ str_nl) :: t) =
      load_lines ea (fold_left (fun e kv => <[kv.1 := kv.2]> e) (assignments [l]) env) t.
Proof.
  destruct l as [k v|t]; cbn [line_ok render_line assignments flat_map app fold_left fst snd].
  - intros H. destruct (assign_line_facts ea k v H) as (Hn & Hc & _ & Hl). auto.
  - intros H. exact (skip_line_facts ea t H).
Qed.

(** The secrets text after a block of lines. *)
Lemma load_lines_lines ea env ls tl :
  Forall (fun l => line_ok ea l = true) ls ->
  load_lines ea env (file_lines (translate_newlines (join str_nl (map render_line ls ++ tl)))) =
  load_lines ea (fold_left (fun e kv => <[kv.1 := kv.2]> e) (assignments ls) env)
    (file_lines (translate_newlines (join str_nl tl))).
Proof.
  revert env. induction ls as [|l r IH]; intros env HF; [reflexivity|].
  inversion HF as [|? ? Hl Hr]; subst.
  destruct (line_facts ea l Hl) as (Hn & Hc & Hf).
  assert (Ha : assignments (l :: r) = (assignments [l] ++ assignments r)%list).
  { cbn [assignments flat_map]. rewrite app_nil_r. reflexivity. }
  rewrite Ha, fold_left_app. cbn [map app].
  destruct (map render_line r ++ tl)%list as [|y ys] eqn:Erest.
  - apply app_eq_nil in Erest as [Er Et]. apply map_eq_nil in Er. subst r tl.
    change (assignments []) with (@nil (string * string)). cbn [join fold_left].
    assert (Ht : translate_newlines (render_line l) = render_line l).
    { rewrite <- (str_app_nil_r (render_line l)) at 1. rewrite (translate_app _ _ Hc).
      apply str_app_nil_r. }
    rewrite Ht. destruct (string_dec (render_line l) EmptyString) as [Ee|Ne].
    + assert (Hz : assignments [l] = []).
      { destruct l as [k v|t]; [|reflexivity]. destruct k; discriminate. }
      rewrite Ee, Hz. reflexivity.
    + rewrite file_lines_last by assumption. apply Hf.
  - change (join str_nl (render_line l :: y :: ys))
      with (render_line l +s+ str_nl +s+ join str_nl (y :: ys)).
    rewrite <- Erest in IH |- *. rewrite (translate_app (render_line l) _ Hc).
    set (J := join str_nl (map render_line r ++ tl)).
    change (translate_newlines (str_nl +s+ J)) with (String chr_nl (translate_newlines J)).
    rewrite file_lines_app by exact Hn. rewrite (proj2 (Hf env _)). apply IH. exact Hr.
Qed.

End ConfigFacts.

Module ConfigTheorems.
Import Config ConfigFixtures StripFacts ConfigFacts.

Lemma filter_sublist {A} (f : A -> bool) (l : list A) : sublist (List.filter f l) l.
Proof.
  induction l as [|x l IH]; [constructor|]. cbn. destruct (f x).
  - apply sublist_skip. exact IH.
  - apply sublist_cons. exact IH.
Qed.

Lemma env_missing_false env var : env_missing env var = false <-> exists s, env !! var = Some s /\ s <> "".
Proof.
  unfold env_missing. destruct (env !! var) as [s|].
  - rewrite String.eqb_neq. split; [eauto|]. intros (s' & [= <-] & H). exact H.
  - split; [discriminate|]. intros (s' & H & _). discriminate.
Qed.

Lemma env_missing_true env var : env_missing env var = true <-> env !! var = None \/ env !! var = Some "".
Proof.
  unfold env_missing. destruct (env !! var) as [s|].
  - rewrite String.eqb_eq. split; [intros ->; auto|]. intros [H|[= ->]]; [discriminate|reflexivity].
  - split; auto.
Qed.

Lemma from_env_ok env :
  (forall var, In var required_vars -> env_missing env var = false) ->
  from_env env =
    CRet {| confluence_url := getenv env "CONFLUENCE_URL";
            confluence_username := getenv env "CONFLUENCE_USERNAME";
            confluence_api_token := getenv env "CONFLUENCE_API_TOKEN";
            azure_openai_api_key := getenv env "AZURE_OPENAI_API_KEY";
            azure_openai_endpoint := getenv env "AZURE_OPENAI_ENDPOINT";
            azure_openai_deployment_name := getenv env "AZURE_OPENAI_DEPLOYMENT_NAME";
            azure_openai_api_version := getenv_default env "AZURE_OPENAI_API_VERSION" "2024-02-15-preview";
            export_dir := getenv_default env "EXPORT_DIR" "summaries" |}.
Proof.
  intros H. unfold from_env.
  assert (E : List.filter (env_missing env) required_vars = []).
  { unfold required_vars. cbn [List.filter].
    rewrite !H by (cbn; tauto). reflexivity. }
  rewrite E. reflexivity.
Qed.

Lemma getenv_some env var s : env !! var = Some s -> getenv env var = s.
Proof. intros H. unfold getenv, getenv_default. rewrite H. reflexivity. Qed.

Lemma getenv_default_cases env var d :
  (env !! var = None /\ getenv_default env var d = d) \/ env !! var = Some (getenv_default env var d).
Proof. unfold getenv_default. destruct (env !! var); auto. Qed.

(** [Config.from_env] fails exactly when some required variable is unset
    or empty; the message lists those variables, in the order of the
    required list, joined by ", ".  Otherwise every required field holds
    its variable's value, and each optional field holds its variable's
    value when the variable is set (even to "") and its default only when
    it is unset. *)
Theorem from_env_outcome (env : environ) :
  match from_env env with
  | CValueError msg =>
      exists missing, missing <> [] /\ sublist missing required_vars /\
        (forall var, In var missing <->
           In var required_vars /\ (env !! var = None \/ env !! var = Some "")) /\
        msg = "Missing required environment variables: " +s+ join ", " missing +s+ str_nl
              +s+ "Please create a 'secrets' file with these variables or set them in your environment."
  | CRet c =>
      (forall var, In var required_vars -> exists s, env !! var = Some s /\ s <> "") /\
      env !! "CONFLUENCE_URL" = Some (confluence_url c) /\
      env !! "CONFLUENCE_USERNAME" = Some (confluence_username c) /\
      env !! "CONFLUENCE_API_TOKEN" = Some (confluence_api_token c) /\
      env !! "AZURE_OPENAI_API_KEY" = Some (azure_openai_api_key c) /\
      env !! "AZURE_OPENAI_ENDPOINT" = Some (azure_openai_endpoint c) /\
      env !! "AZURE_OPENAI_DEPLOYMENT_NAME" = Some (azure_openai_deployment_name c) /\
      ((env !! "AZURE_OPENAI_API_VERSION" = None /\ azure_openai_api_version c = "2024-02-15-preview")
       \/ env !! "AZURE_OPENAI_API_VERSION" = Some (azure_openai_api_version c)) /\
      ((env !! "EXPORT_DIR" = None /\ export_dir c = "summaries")
       \/ env !! "EXPORT_DIR" = Some (export_dir c))
  end.
Proof.
  destruct (List.filter (env_missing env) required_vars) as [|m ms] eqn:F.
  - assert (H : forall var, In var required_vars -> env_missing env var = false).
    { intros var Hin. destruct (env_missing env var) eqn:Em; [|reflexivity].
      assert (Hf : In var (List.filter (env_missing env) required_vars)) by (apply filter_In; auto).
      rewrite F in Hf. destruct Hf. }
    rewrite (from_env_ok env H). cbn [confluence_url confluence_username confluence_api_token
      azure_openai_api_key azure_openai_endpoint azure_openai_deployment_name
      azure_openai_api_version export_dir].
    assert (G : forall var, In var required_vars -> env !! var = Some (getenv env var)).
    { intros var Hin. apply H, env_missing_false in Hin as (s & Hs & _).
      rewrite (getenv_some _ _ _ Hs). exact Hs. }
    split; [intros var Hin; apply env_missing_false, H, Hin|].
    repeat split; try (apply G; cbn; tauto); apply getenv_default_cases.
  - unfold from_env. rewrite F. exists (m :: ms). split; [discriminate|].
    split; [rewrite <- F; apply filter_sublist|]. split; [|reflexivity].
    intros var. rewrite <- F, filter_In, env_missing_true. reflexivity.
Qed.

Lemma fold_insert_notin (kvs : list (string * string)) (env : environ) k :
  ~ In k (map fst kvs) -> fold_left (fun e kv => <[kv.1 := kv.2]> e) kvs env !! k = env !! k.
Proof.
  revert env. induction kvs as [|[k' v'] r IH]; intros env Hn; [reflexivity|].
  cbn [fold_left map fst] in *. rewrite IH by (intros H; apply Hn; right; exact H). cbn.
  apply lookup_insert_ne. intros ->. apply Hn. left. reflexivity.
Qed.

Lemma fold_insert_in (kvs : list (string * string)) (env : environ) k v :
  NoDup (map fst kvs) -> In (k, v) kvs ->
  fold_left (fun e kv => <[kv.1 := kv.2]> e) kvs env !! k = Some v.
Proof.
  revert env. induction kvs as [|[k' v'] r IH]; intros env Hd Hin; [destruct Hin|].
  cbn [fold_left map fst] in *. apply NoDup_cons in Hd as [Hn Hd].
  destruct Hin as [[= -> ->]|Hin].
  - rewrite fold_insert_notin by (rewrite <- list_elem_of_In; exact Hn).
    cbn. apply lookup_insert_eq.
  - apply IH; assumption.
Qed.

(** Reading a secrets file made of assignments [KEY=VALUE] (no whitespace
    around key and value, no "=" in the key, no comment marker), blank
    lines and comments, with or without a final newline, sets each key to
    its value in file order, a later line for the same key winning, and
    raises nothing.  A following line that is not blank, not a comment and
    has no "=" stops the reading with the unpacking [ValueError], the
    earlier assignments kept. *)
Theorem load_secrets_assignments (env_accepts : string -> string -> bool) (env : environ)
    (ls : list secrets_line) :
  Forall (fun l => line_ok env_accepts l = true) ls ->
  load_secrets env_accepts env (Some (join str_nl (map render_line ls))) =
    (fold_left (fun e kv => <[kv.1 := kv.2]> e) (assignments ls) env, None) /\
    forall bad rest,
    strip bad <> "" -> starts_with "#" (strip bad) = false -> contains "=" bad = false ->
    contains str_nl bad = false -> contains str_cr bad = false ->
    load_secrets env_accepts env (Some (join str_nl (map render_line ls ++ bad :: rest))) =
    (fold_left (fun e kv => <[kv.1 := kv.2]> e) (assignments ls) env, Some UnpackError).
Proof.
  intros HF. unfold load_secrets. split.
  - rewrite <- (app_nil_r (map render_line ls)). rewrite load_lines_lines by exact HF. reflexivity.
  - intros bad rest Hs Hh He Hn Hc. rewrite load_lines_lines by exact HF.
    set (env' := fold_left _ (assignments ls) env).
    assert (Hne : bad <> "") by (intros ->; apply Hs; reflexivity).
    assert (Hline : forall t, load_lines env_accepts env' (bad :: t) = (env', Some UnpackError) /\
                             load_lines env_accepts env' ((bad +s+ str_nl) :: t) = (env', Some UnpackError)).
    { assert (Hb : forall line t, strip line = strip bad ->
                     load_lines env_accepts env' (line :: t) = (env', Some UnpackError)).
      { intros line t Hl. cbn [load_lines]. rewrite Hl.
        assert (E1 : String.eqb (strip bad) "" = false) by (apply String.eqb_neq; exact Hs).
        rewrite E1, Hh, split_eq_none by exact (strip_no_char "=" bad He). reflexivity. }
      intros t. split; apply Hb; [reflexivity|apply strip_nl]. }
    destruct rest as [|r rs].
    + cbn [join]. rewrite <- (str_app_nil_r bad) at 1. rewrite (translate_app _ _ Hc), str_app_nil_r.
      rewrite file_lines_last by assumption. apply Hline.
    + change (join str_nl (bad :: r :: rs)) with (bad +s+ str_nl +s+ join str_nl (r :: rs)).
      rewrite (translate_app _ _ Hc).
      change (translate_newlines (str_nl +s+ join str_nl (r :: rs)))
        with (String chr_nl (translate_newlines (join str_nl (r :: rs)))).
      rewrite file_lines_app by exact Hn. apply Hline.
Qed.


(** An ordinary file: a comment, one assignment and a final newline. *)
Lemma load_secrets_assignments_witness :
  Forall (fun l => line_ok accepts_nonempty_name l = true)
    [Skip "# wiki"; Assign "CONFLUENCE_URL" "https://x"; Skip ""] /\
  load_secrets accepts_nonempty_name ∅
    (Some ("# wiki" +s+ str_nl +s+ "CONFLUENCE_URL=https://x" +s+ str_nl)) =
    (<["CONFLUENCE_URL" := "https://x"]> ∅, None).
Proof.
  assert (HF : Forall (fun l => line_ok accepts_nonempty_name l = true)
    [Skip "# wiki"; Assign "CONFLUENCE_URL" "https://x"; Skip ""]) by (repeat constructor).
  split; [exact HF|]. exact (proj1 (load_secrets_assignments accepts_nonempty_name ∅ _ HF)).
Defined.


End ConfigTheorems.

Module LoaderFacts.
Import Loader LoaderProps LoaderFixtures.

Lemma pyget_raise v k dflt e :
  pyget v k dflt = LRaise e ->
  exists t, t <> "dict" /\ e = LPy (AttributeError ("'" +s+ t +s+ "' object has no attribute 'get'")).
Proof.
  destruct v; cbn; intros H; try discriminate; injection H as <-; eexists; split;
    try reflexivity; discriminate.
Qed.

Ltac bind_cases H :=
  repeat match type of H with
  | context [mbind _ ?m] =>
      let E := fresh "E" in
      destruct m eqn:E; cbn [mbind lresult_bind] in H; [|try (injection H as <-)]
  end.

Section Client.
Variable config : Config.config.
Variable cl : client.
Variable validation_message : pyval -> string.

Lemma create_ok page d : _create_document config validation_message page = LOk d -> doc_ok config d.
Proof.
  unfold _create_document. intros H. bind_cases H; try discriminate.
  match goal with _ : pyget _ "value" _ = LOk ?c |- _ => destruct c end;
    try discriminate. injection H as <-.
  split; [reflexivity|]. do 2 eexists. cbn. repeat split.
Qed.

Lemma create_raise page e : _create_document config validation_message page = LRaise e -> create_error validation_message e.
Proof.
  unfold _create_document. intros H.
  bind_cases H;
    try (left; eapply pyget_raise; eassumption).
  match goal with _ : pyget _ "value" _ = LOk ?c |- _ => destruct c end;
    try discriminate; injection H as <-; right; eexists; (split; [idtac|reflexivity]); intros s0; discriminate.
Qed.

Lemma create_all_ok pages ds :
  create_all config validation_message pages = LOk ds -> List.length ds = List.length pages /\ Forall (doc_ok config) ds.
Proof.
  revert ds. induction pages as [|p t IH]; cbn; intros ds H.
  - injection H as <-. split; [reflexivity|constructor].
  - destruct (_create_document config validation_message p) as [d|e] eqn:Ed; cbn in H; [|discriminate].
    destruct (create_all config validation_message t) as [ds'|e] eqn:Et; cbn in H; [|discriminate].
    injection H as <-. destruct (IH ds' eq_refl) as [Hl Hf].
    split; [cbn; lia|]. constructor; [exact (create_ok p d Ed)|exact Hf].
Qed.

Lemma create_all_images pages ds :
  create_all config validation_message pages = LOk ds ->
  Forall2 (fun page d => _create_document config validation_message page = LOk d) pages ds.
Proof.
  revert ds. induction pages as [|p t IH]; cbn; intros ds H.
  - injection H as <-. constructor.
  - destruct (_create_document config validation_message p) as [d|e] eqn:Ed; cbn in H; [|discriminate].
    destruct (create_all config validation_message t) as [ds'|e] eqn:Et; cbn in H; [|discriminate].
    injection H as <-. constructor; [exact Ed|exact (IH ds' eq_refl)].
Qed.

Lemma create_all_raise pages e :
  create_all config validation_message pages = LRaise e -> create_error validation_message e.
Proof.
  induction pages as [|p t IH]; cbn; intros H; [discriminate|].
  destruct (_create_document config validation_message p) as [d|e'] eqn:Ed; cbn in H.
  - destruct (create_all config validation_message t) as [ds'|e'] eqn:Et; cbn in H;
      [discriminate|]. injection H as <-. exact (IH eq_refl).
  - injection H as <-. exact (create_raise p e' Ed).
Qed.

End Client.

Lemma create_error_message vm e : create_error vm e -> failure_message vm (lexn_str e).
Proof. intros [(t & Ht & ->)|(v & Hv & ->)]; [left|right]; eexists; split; eauto. Qed.

Lemma space_raise config cl vm space_key e :
  (pages ← lift (get_all_pages_from_space cl space_key expand); create_all config vm pages) = LRaise e ->
  (exists ce, lexn_str e = exn_str ce /\ get_all_pages_from_space cl space_key expand = Raise ce) \/
  failure_message vm (lexn_str e).
Proof.
  destruct (get_all_pages_from_space cl space_key expand) as [pages|ce] eqn:Eg; cbn; intros Hf.
  - right. exact (create_error_message vm e (create_all_raise config vm pages e Hf)).
  - injection Hf as <-. left. exists ce. split; [reflexivity|reflexivity].
Qed.

(** [load_content] raises only its own [Exception], whose message is the
    prefix followed by the message of what failed: one of the three client
    calls made with the given space or page id, a [.get] on a value that is
    not a dict, or the [Document] validation of a non-string content. *)
Theorem load_content_errors config cl vm space_key page_id include_children e :
  load_content config cl vm space_key page_id include_children = LRaise e ->
  exists m, e = LException (prefix +s+ m) /\
    ((exists ce, m = exn_str ce /\
        (get_all_pages_from_space cl space_key expand = Raise ce \/
         exists pid, page_id = Some pid /\ pid <> "" /\
           (get_page_by_id cl pid expand = Raise ce \/
            (include_children = true /\ get_child_pages cl pid expand = Raise ce)))) \/
     (exists t, t <> "dict" /\ m = "'" +s+ t +s+ "' object has no attribute 'get'") \/
     (exists v, (forall s, v <> PStr s) /\ m = vm v)).
Proof.
  unfold load_content.
  destruct (load_body config cl vm space_key page_id include_children) as [ds|e0] eqn:H;
    intros He; [discriminate|]. injection He as <-. exists (lexn_str e0). split; [reflexivity|].
  unfold load_body in H. cbv zeta in H.
  destruct page_id as [pid|]; [destruct (String.eqb pid "") eqn:Ep|].
  2:{ apply String.eqb_neq in Ep.
      destruct (get_page_by_id cl pid expand) as [page|ce] eqn:Eg; cbn in H.
      2:{ injection H as <-. left. exists ce. split; [reflexivity|]. right. exists pid. auto. }
      destruct (_create_document config vm page) as [d|e1] eqn:Ed; cbn in H.
      2:{ injection H as <-. right. exact (create_error_message vm e1 (create_raise config vm page e1 Ed)). }
      destruct include_children; [|discriminate].
      destruct (get_child_pages cl pid expand) as [children|ce] eqn:Ec; cbn in H.
      2:{ injection H as <-. left. exists ce. split; [reflexivity|]. right. exists pid. auto. }
      destruct (create_all config vm children) as [ds|e1] eqn:Ea; cbn in H; [discriminate|].
      injection H as <-. right. exact (create_error_message vm e1 (create_all_raise config vm children e1 Ea)). }
  all: destruct (space_raise config cl vm space_key e0 H) as [(ce & Hm & Hg)|Hr];
    [left; exists ce; split; [exact Hm|left; exact Hg]|right; exact Hr].
Qed.

(** With no page id, or an empty one, [load_content] loads the whole space:
    it never calls [get_page_by_id] or [get_child_pages], and
    [include_children] has no effect. *)
Theorem load_content_without_page_id config cl cl' vm space_key page_id include_children include_children' :
  (page_id = None \/ page_id = Some "") ->
  get_all_pages_from_space cl' = get_all_pages_from_space cl ->
  load_content config cl' vm space_key page_id include_children =
  load_content config cl vm space_key None include_children'.
Proof.
  intros Hp Hg. unfold load_content, load_body. rewrite Hg.
  destruct Hp as [->| ->]; reflexivity.
Qed.

Lemma load_content_without_page_id_witness :
  (Some "" = None \/ Some "" = Some "") /\
  get_all_pages_from_space client_no_pages = get_all_pages_from_space client0 /\
  load_content cfg0 client_no_pages vm0 "DOC" (Some "") true =
  load_content cfg0 client0 vm0 "DOC" None false.
Proof.
  assert (Hp : Some "" = None \/ Some "" = Some "") by (right; reflexivity).
  assert (Hg : get_all_pages_from_space client_no_pages = get_all_pages_from_space client0)
    by reflexivity.
  split; [exact Hp|]. split; [exact Hg|].
  exact (load_content_without_page_id cfg0 client0 client_no_pages vm0 "DOC" (Some "") true false Hp Hg).
Defined.

(** What a successful [load_content] returns: with a non-empty page id, the
    document [_create_document] makes of that page followed, if
    [include_children], by the documents it makes of the child pages, in
    order; otherwise the documents it makes of the pages of the space, in
    order. Every document's metadata has the eight keys in order, and its
    [url] is built from the recorded [space_key] and [id]. *)
Theorem load_content_result config cl vm space_key page_id include_children ds :
  load_content config cl vm space_key page_id include_children = LOk ds ->
  Forall (doc_ok config) ds /\
  match page_id with
  | Some pid =>
      if String.eqb pid "" then
        exists pages, get_all_pages_from_space cl space_key expand = Ok pages /\
          Forall2 (fun page d => _create_document config vm page = LOk d) pages ds
      else
        exists page d ds', get_page_by_id cl pid expand = Ok page /\
          _create_document config vm page = LOk d /\ ds = d :: ds' /\
          (if include_children then
             exists children, get_child_pages cl pid expand = Ok children /\
               Forall2 (fun page d => _create_document config vm page = LOk d) children ds'
           else ds' = [])
  | None =>
      exists pages, get_all_pages_from_space cl space_key expand = Ok pages /\
        Forall2 (fun page d => _create_document config vm page = LOk d) pages ds
  end.
Proof.
  unfold load_content.
  destruct (load_body config cl vm space_key page_id include_children) as [ds0|e0] eqn:H;
    intros He; [|discriminate]. injection He as <-.
  unfold load_body in H. cbv zeta in H.
  assert (Hs : forall ds1,
    (pages ← lift (get_all_pages_from_space cl space_key expand); create_all config vm pages) = LOk ds1 ->
    Forall (doc_ok config) ds1 /\
    exists pages, get_all_pages_from_space cl space_key expand = Ok pages /\
      Forall2 (fun page d => _create_document config vm page = LOk d) pages ds1).
  { intros ds1 H1. destruct (get_all_pages_from_space cl space_key expand) as [pages|ce];
      cbn in H1; [|discriminate].
    destruct (create_all_ok config vm pages ds1 H1) as [_ Hf].
    split; [exact Hf|]. exists pages. split; [reflexivity|exact (create_all_images config vm pages ds1 H1)]. }
  destruct page_id as [pid|]; [destruct (String.eqb pid "") eqn:Ep|].
  - exact (Hs ds0 H).
  - destruct (get_page_by_id cl pid expand) as [page|ce] eqn:Eg; cbn in H; [|discriminate].
    destruct (_create_document config vm page) as [d|e1] eqn:Ed; cbn in H; [|discriminate].
    destruct include_children.
    + destruct (get_child_pages cl pid expand) as [children|ce] eqn:Ec; cbn in H; [|discriminate].
      destruct (create_all config vm children) as [ds1|e1] eqn:Ea; cbn in H; [|discriminate].
      injection H as <-. destruct (create_all_ok config vm children ds1 Ea) as [_ Hf].
      split; [constructor; [exact (create_ok config vm page d Ed)|exact Hf]|].
      exists page, d, ds1. do 3 (split; [first [assumption|reflexivity]|]).
      exists children. split; [reflexivity|exact (create_all_images config vm children ds1 Ea)].
    + injection H as <-. split; [constructor; [exact (create_ok config vm page d Ed)|constructor]|].
      exists page, d, []. do 3 (split; [first [assumption|reflexivity]|]). reflexivity.
  - exact (Hs ds0 H).
Qed.

Lemma load_content_result_witness :
  exists ds, load_content cfg0 client0 vm0 "DOC" (Some "123") true = LOk ds /\
    Forall (doc_ok cfg0) ds /\ List.length ds = 2.
Proof.
  eexists. assert (H : load_content cfg0 client0 vm0 "DOC" (Some "123") true = LOk _) by (vm_compute; reflexivity).
  split; [exact H|]. destruct (load_content_result cfg0 client0 vm0 "DOC" (Some "123") true _ H) as [Hf _].
  split; [exact Hf|reflexivity].
Defined.

Lemma load_content_errors_witness :
  exists e, load_content cfg0 client0 vm0 "DOC" (Some "9") false = LRaise e /\
    exists m, e = LException (prefix +s+ m).
Proof.
  eexists. assert (H : load_content cfg0 client0 vm0 "DOC" (Some "9") false = LRaise _) by (vm_compute; reflexivity).
  split; [exact H|]. destruct (load_content_errors cfg0 client0 vm0 "DOC" (Some "9") false _ H) as (m & Hm & _).
  exists m. exact Hm.
Defined.

End LoaderFacts.

Module CliFacts.
Import Summarizer Cli CliFixtures.

Definition unified_msg : string := "name 'unified_diff' is not defined".

Lemma global_unified_diff out : global "unified_diff" out = (IErr unified_msg, out).
Proof. reflexivity. Qed.

Lemma strip_truthy_nonempty s : strip_truthy s = true -> String.eqb s "" = false.
Proof. destruct s; [discriminate|reflexivity]. Qed.

Lemma old_section_rows_spec olds news out :
  (common_section olds news = true -> old_section_rows olds news out = (IErr unified_msg, out)) /\
  (common_section olds news = false -> exists rows,
     old_section_rows olds news out = (IOk rows, out) /\
     Forall (fun r => last r = Some "Section removed") rows).
Proof.
  induction olds as [|s t IH]; unfold common_section in *; cbn [old_section_rows existsb].
  - split; [discriminate|]. intros _. exists []. split; [reflexivity|constructor].
  - destruct IH as [IHt IHf].
    destruct (strip_truthy s) eqn:Hs; cbn [negb andb orb]; [|exact (conj IHt IHf)].
    destruct (title_of s) as [g|] eqn:Ht; [|exact (conj IHt IHf)].
    destruct (List.find (fun n => strip_truthy n && title_prefix_match (strip g) n) news) as [ns|] eqn:Hf.
    + apply List.find_some in Hf as [Hin Hns].
      assert (Hex : existsb (fun n => strip_truthy n && title_prefix_match (strip g) n) news = true).
      { apply existsb_exists. exists ns. split; assumption. }
      rewrite Hex. cbn [orb]. split; [|discriminate]. intros _.
      apply andb_prop in Hns as [Hns _]. rewrite (strip_truthy_nonempty ns Hns). cbn [negb].
      unfold mbind, IO_bind. rewrite global_unified_diff. reflexivity.
    + assert (Hex : existsb (fun n => strip_truthy n && title_prefix_match (strip g) n) news = false).
      { apply not_true_iff_false. intros Hx. apply existsb_exists in Hx as (n & Hin & Hn).
        pose proof (List.find_none _ _ Hf n Hin) as Hn'. congruence. }
      rewrite Hex. cbn [orb]. split.
      { intros Hc. unfold mbind, IO_bind. rewrite (IHt Hc). reflexivity. }
      intros Hc.
      destruct (IHf Hc) as (rows & Hr & Hall).
      unfold mbind, IO_bind. rewrite Hr. eexists. split; [reflexivity|].
      constructor; [reflexivity|exact Hall].
Qed.

Lemma new_section_rows_new olds news :
  Forall (fun r => last r = Some "New section") (new_section_rows olds news).
Proof.
  induction news as [|s t IH]; cbn [new_section_rows]; [constructor|].
  destruct (strip_truthy s); cbn [negb]; [|exact IH].
  destruct (title_of s); [|exact IH].
  destruct (existsb _ olds); cbn [negb]; [exact IH|]. constructor; [reflexivity|exact IH].
Qed.

Lemma display_diff_spec old_content new_content out :
  fst (display_diff old_content new_content out) = IErr "name 'unified_diff' is not defined" /\
  (common_section (re_split_headings old_content) (re_split_headings new_content) = true ->
   snd (display_diff old_content new_content out) = out) /\
  (common_section (re_split_headings old_content) (re_split_headings new_content) = false ->
   exists rows,
     snd (display_diff old_content new_content out) =
       (out ++ [PTable "Section Changes" section_columns rows;
                PMarkup (str_nl +s+ "Detailed Changes:")])%list /\
     Forall (fun r => last r = Some "Section removed" \/ last r = Some "New section") rows).
Proof.
  unfold display_diff.
  set (olds := re_split_headings old_content). set (news := re_split_headings new_content).
  destruct (old_section_rows_spec olds news out) as [Ht Hf].
  destruct (common_section olds news) eqn:Hc.
  - unfold mbind, IO_bind. rewrite (Ht eq_refl). cbn.
    split; [reflexivity|]. split; [intros _; reflexivity|discriminate].
  - destruct (Hf eq_refl) as (rows & Hr & Hall).
    unfold mbind, IO_bind. rewrite Hr. cbn -[global]. rewrite global_unified_diff.
    split; [reflexivity|]. split; [discriminate|].
    intros _. eexists. split; [rewrite <- app_assoc; reflexivity|].
    apply Forall_app. split.
    + eapply Forall_impl; [exact Hall|]. intros r Hr'. left. exact Hr'.
    + eapply Forall_impl; [exact (new_section_rows_new olds news)|]. intros r Hr'. right. exact Hr'.
Qed.



Lemma print_messages_eq ms out :
  print_messages ms out = (IOk tt, (out ++ map colour ms)%list).
Proof.
  revert out. induction ms as [|m t IH]; intros out; cbn [print_messages map].
  - rewrite app_nil_r. reflexivity.
  - unfold mbind, IO_bind, colour. destruct (starts_with "Error" m); cbn [print];
      rewrite IH, <- app_assoc; reflexivity.
Qed.




End CliFacts.
